(** * A CORS proxy for local development: [proxy-server.py]

    The program is one request handler class, [CORSProxyHandler], built on
    Python's [http.server.SimpleHTTPRequestHandler].  It overrides [do_GET]
    (route [/proxy?url=...] to an outbound fetch, everything else to the
    static file server), adds [do_OPTIONS] (preflight) and overrides
    [end_headers] (inject [Access-Control-Allow-Origin]).

    The embedding follows the class structure.  A handler is a record of the
    attributes the code reads and writes; a method is a computation in a
    state-and-exception monad over that record; the inherited methods of
    [http.server] that the program calls ([send_response], [send_header],
    [end_headers], [send_error], [do_GET]) are transcribed from the library
    (CPython 3.11), with [self.end_headers()] dispatched to the override.

    Conventions.
    - A Python [str] is a [string] holding its UTF-8 encoding, a Python
      [bytes] is a [string] holding the bytes.  Every text operation the
      program uses (prefix test, split on an ASCII character, replacing an
      ASCII character) acts the same way on the UTF-8 encoding.
    - What lies outside the program is a [world]: what [urllib] does with a
      target URL, what the static server finds for a request, the clock.
    - Writes to the client socket and to the log succeed.  Requests carry an
      HTTP version (for an HTTP/0.9 request line the library emits no status
      line and no headers at all). *)

From Stdlib Require Import String Ascii List ZArith Lia Bool DecimalString.
Import ListNotations.
Local Open Scope string_scope.
Local Open Scope Z_scope.

(** * Python text and bytes *)

Module Py.

(** [str] and [bytes], both as sequences of 8-bit characters. *)
Definition str := string.
Definition bytes := string.

Definition ord (c : ascii) : Z := Z.of_nat (nat_of_ascii c).
Definition chr (z : Z) : ascii := ascii_of_nat (Z.to_nat z).

(** The double quote, which a literal cannot hold. *)
Definition dquote : string := String (chr 34) "".

(** [len(s)] for [bytes]. *)
Definition len (s : string) : Z := Z.of_nat (String.length s).

(** [str(n)] and ["%d" % n] for an [int]. *)
Definition str_of_int (n : Z) : str := NilZero.string_of_int (Z.to_int n).

(** [s.startswith(p)]. *)
Definition startswith (s p : str) : bool := String.prefix p s.

(** [not s], the truth value of a string. *)
Definition is_empty (s : string) : bool :=
  match s with EmptyString => true | String _ _ => false end.

(** [sep in s] for a one-character [sep]. *)
Fixpoint contains_char (sep : ascii) (s : string) : bool :=
  match s with
  | EmptyString => false
  | String c r => Ascii.eqb c sep || contains_char sep r
  end.

(** [s.split(sep)] for a one-character [sep]: never the empty list. *)
Fixpoint split (sep : ascii) (s : string) : list string :=
  match s with
  | EmptyString => [EmptyString]
  | String c r =>
      if Ascii.eqb c sep then EmptyString :: split sep r
      else match split sep r with
           | h :: t => String c h :: t
           | [] => [String c EmptyString]
           end
  end.

(** [s.split(sep, 1)]: cut at the first [sep] only. *)
Fixpoint split1 (sep : ascii) (s : string) : list string :=
  match s with
  | EmptyString => [EmptyString]
  | String c r =>
      if Ascii.eqb c sep then [EmptyString; r]
      else match split1 sep r with
           | h :: t => String c h :: t
           | [] => [String c EmptyString]
           end
  end.

(** [s.replace(a, b)] for one-character [a] and [b]. *)
Fixpoint replace_char (a b : ascii) (s : string) : string :=
  match s with
  | EmptyString => EmptyString
  | String c r => String (if Ascii.eqb c a then b else c) (replace_char a b r)
  end.

(** ["".join(parts)]. *)
Definition join (parts : list string) : string :=
  fold_right String.append EmptyString parts.

(** [b.decode("iso-8859-1")]: every byte is a code point; code points
    from 128 on take two bytes in UTF-8. *)
Fixpoint latin1_decode (b : bytes) : str :=
  match b with
  | EmptyString => EmptyString
  | String c r =>
      if ord c <? 128 then String c (latin1_decode r)
      else String (chr (192 + ord c / 64))
             (String (chr (128 + ord c mod 64)) (latin1_decode r))
  end.

(** Whether [s.encode("latin-1", "strict")] succeeds: all code points are
    below 256, that is, no UTF-8 lead byte above 0xC3 occurs. *)
Fixpoint latin1_encodable (s : str) : bool :=
  match s with
  | EmptyString => true
  | String c r => (ord c <? 196) && latin1_encodable r
  end.

(** [html.escape(s, quote=False)]. *)
Fixpoint html_escape (s : str) : str :=
  match s with
  | EmptyString => EmptyString
  | String c r =>
      (if Ascii.eqb c "&" then "&amp;"
       else if Ascii.eqb c "<" then "&lt;"
       else if Ascii.eqb c ">" then "&gt;"
       else String c EmptyString) ++ html_escape r
  end.

(** [needle in s] for strings. *)
Fixpoint contains (needle s : string) : bool :=
  String.prefix needle s ||
  match s with
  | EmptyString => false
  | String _ r => contains needle r
  end.

End Py.

(** * Exceptions *)

(** The part of Python's exception hierarchy the program can meet.  The two
    classes of [urllib.error] sit below [OSError]; [HTTPError] is a subclass
    of [URLError], so the order of the [except] clauses matters. *)
Inductive builtin : Type :=
  | BaseException | Exception | KeyboardInterrupt | SystemExit
  | OSError | TimeoutError | ConnectionError | ConnectionResetError
  | ValueError | UnicodeError | UnicodeEncodeError
  | LookupError | IndexError | AttributeError.

Inductive pyclass : Type :=
  | Builtin (b : builtin)
  | URLError_class
  | HTTPError_class.

(** A raised exception, with what the handlers read from it. *)
Inductive exn : Type :=
  | HTTPError (code : Z) (msg : Py.bytes)
      (** [e.code] and the reason phrase of the remote status line, which
          [http.client] decodes as ISO-8859-1 *)
  | URLError (reason : Py.str)
  | Raised (cls : builtin) (text : Py.str).
      (** an instance of a built-in class, with its [str(e)] *)

Definition builtin_eqb (a b : builtin) : bool :=
  match a, b with
  | BaseException, BaseException | Exception, Exception
  | KeyboardInterrupt, KeyboardInterrupt | SystemExit, SystemExit
  | OSError, OSError | TimeoutError, TimeoutError
  | ConnectionError, ConnectionError
  | ConnectionResetError, ConnectionResetError
  | ValueError, ValueError | UnicodeError, UnicodeError
  | UnicodeEncodeError, UnicodeEncodeError
  | LookupError, LookupError | IndexError, IndexError
  | AttributeError, AttributeError => true
  | _, _ => false
  end.

Definition pyclass_eqb (a b : pyclass) : bool :=
  match a, b with
  | Builtin x, Builtin y => builtin_eqb x y
  | URLError_class, URLError_class => true
  | HTTPError_class, HTTPError_class => true
  | _, _ => false
  end.

(** The direct base class. *)
Definition base (b : builtin) : option builtin :=
  match b with
  | BaseException => None
  | Exception | KeyboardInterrupt | SystemExit => Some BaseException
  | OSError | ValueError | LookupError | AttributeError => Some Exception
  | TimeoutError | ConnectionError => Some OSError
  | ConnectionResetError => Some ConnectionError
  | UnicodeError => Some ValueError
  | UnicodeEncodeError => Some UnicodeError
  | IndexError => Some LookupError
  end.

(** The chain of base classes, the class itself first. *)
Fixpoint mro_upto (fuel : nat) (b : builtin) : list builtin :=
  b :: match fuel, base b with
       | S n, Some p => mro_upto n p
       | _, _ => []
       end.

Definition mro (c : pyclass) : list pyclass :=
  match c with
  | Builtin b => map Builtin (mro_upto 8 b)
  | URLError_class => URLError_class :: map Builtin (mro_upto 8 OSError)
  | HTTPError_class =>
      HTTPError_class :: URLError_class :: map Builtin (mro_upto 8 OSError)
  end.

Definition type_of (e : exn) : pyclass :=
  match e with
  | HTTPError _ _ => HTTPError_class
  | URLError _ => URLError_class
  | Raised b _ => Builtin b
  end.

(** [isinstance(e, c)], the test an [except c] clause makes. *)
Definition isinstance (e : exn) (c : pyclass) : bool :=
  existsb (pyclass_eqb c) (mro (type_of e)).

(** [str(e)]: [HTTPError.__str__] and [URLError.__str__] of [urllib.error]. *)
Definition exn_str (e : exn) : Py.str :=
  match e with
  | HTTPError code msg =>
      "HTTP Error " ++ Py.str_of_int code ++ ": " ++ Py.latin1_decode msg
  | URLError reason => "<urlopen error " ++ reason ++ ">"
  | Raised _ text => text
  end.

(** * [urllib.parse] *)

Module urllib_parse.

Definition hex_value (c : ascii) : option Z :=
  let n := Py.ord c in
  if (48 <=? n) && (n <=? 57) then Some (n - 48)
  else if (65 <=? n) && (n <=? 70) then Some (n - 55)
  else if (97 <=? n) && (n <=? 102) then Some (n - 87)
  else None.

(** One item of [string.split(b'%')] after the first: two hexadecimal
    digits become a byte, anything else keeps its percent sign. *)
Definition unquote_item (item : string) : Py.bytes :=
  match item with
  | String a (String b rest) =>
      match hex_value a, hex_value b with
      | Some h, Some l => String (Py.chr (16 * h + l)) rest
      | _, _ => String "%" item
      end
  | _ => String "%" item
  end.

Definition unquote_to_bytes (s : string) : Py.bytes :=
  match Py.split "%" s with
  | [] => s
  | [_] => s
  | first :: items => Py.join (first :: map unquote_item items)
  end.

(** [bytes.decode("utf-8", "replace")]: a well-formed sequence is kept,
    every maximal ill-formed run becomes U+FFFD. *)
Inductive utf8_state : Type :=
  | Start
  | Pending (seen : string) (need : nat) (lo hi : Z).

Definition replacement : Py.str :=
  String (Py.chr 239) (String (Py.chr 191) (String (Py.chr 189) "")).

Definition one (c : ascii) : string := String c "".

Definition utf8_lead (c : ascii) : string * utf8_state :=
  let n := Py.ord c in
  if n <? 128 then (one c, Start)
  else if n <? 194 then (replacement, Start)
  else if n <? 224 then ("", Pending (one c) 1 128 191)
  else if n =? 224 then ("", Pending (one c) 2 160 191)
  else if n =? 237 then ("", Pending (one c) 2 128 159)
  else if n <? 240 then ("", Pending (one c) 2 128 191)
  else if n =? 240 then ("", Pending (one c) 3 144 191)
  else if n <? 244 then ("", Pending (one c) 3 128 191)
  else if n =? 244 then ("", Pending (one c) 3 128 143)
  else (replacement, Start).

Fixpoint utf8_decode_from (st : utf8_state) (b : Py.bytes) : Py.str :=
  match b with
  | EmptyString =>
      match st with Start => "" | Pending _ _ _ _ => replacement end
  | String c r =>
      match st with
      | Start =>
          let (out, st') := utf8_lead c in out ++ utf8_decode_from st' r
      | Pending seen need lo hi =>
          if (lo <=? Py.ord c) && (Py.ord c <=? hi) then
            match need with
            | S (S n) =>
                utf8_decode_from (Pending (seen ++ one c) (S n) 128 191) r
            | _ => seen ++ one c ++ utf8_decode_from Start r
            end
          else
            let (out, st') := utf8_lead c in
            replacement ++ out ++ utf8_decode_from st' r
      end
  end.

Definition utf8_decode_replace (b : Py.bytes) : Py.str :=
  utf8_decode_from Start b.

(** [_asciire.split(s)]: the maximal runs of ASCII characters, each
    tagged [true], and what separates them, tagged [false]. *)
Fixpoint ascii_runs (s : string) : list (bool * string) :=
  match s with
  | EmptyString => []
  | String c r =>
      let a := Py.ord c <? 128 in
      match ascii_runs r with
      | (a', run) :: rest =>
          if Bool.eqb a a' then (a, String c run) :: rest
          else (a, one c) :: (a', run) :: rest
      | [] => [(a, one c)]
      end
  end.

(** [unquote(s)] with the defaults [encoding="utf-8", errors="replace"]. *)
Definition unquote (s : Py.str) : Py.str :=
  if negb (Py.contains_char "%" s) then s
  else
    Py.join
      (map (fun '(is_ascii, run) =>
              if is_ascii : bool
              then utf8_decode_replace (unquote_to_bytes run)
              else run)
           (ascii_runs s)).

(** [parse_qsl(qs)] with the defaults [keep_blank_values=False],
    [strict_parsing=False], [separator="&"]. *)
Definition parse_field (name_value : string) : list (Py.str * Py.str) :=
  if Py.is_empty name_value then []
  else
    match Py.split1 "=" name_value with
    | [n; v] =>
        if negb (Py.is_empty v) then
          [(unquote (Py.replace_char "+" " " n),
            unquote (Py.replace_char "+" " " v))]
        else []
    | _ => []
    end.

Definition parse_qsl (qs : Py.str) : list (Py.str * Py.str) :=
  if Py.is_empty qs then []
  else flat_map parse_field (Py.split "&" qs).

(** A [dict] from names to lists of values, in insertion order. *)
Definition dict : Type := list (Py.str * list Py.str).

Fixpoint dict_get (d : dict) (k : Py.str) : option (list Py.str) :=
  match d with
  | [] => None
  | (k', v) :: rest => if String.eqb k' k then Some v else dict_get rest k
  end.

(** [parsed_result[name].append(value)] when the name is there,
    [parsed_result[name] = [value]] otherwise. *)
Fixpoint dict_add (d : dict) (k v : Py.str) : dict :=
  match d with
  | [] => [(k, [v])]
  | (k', vs) :: rest =>
      if String.eqb k' k then (k', (vs ++ [v])%list) :: rest
      else (k', vs) :: dict_add rest k v
  end.

Definition parse_qs (qs : Py.str) : dict :=
  fold_left (fun d '(name, value) => dict_add d name value)
            (parse_qsl qs) [].

End urllib_parse.

(** * The world outside the program *)

(** What [urllib] does with a target URL, in the three steps the program
    takes: [urllib.request.Request(url, ...)] checks the URL and may raise
    before anything goes out; [urlopen(req, timeout=30)] and
    [response.read()] may raise on the way; or the body is read. *)
Inductive fetch_outcome : Type :=
  | Rejected (e : exn)
      (** [Request(url, ...)] raised (a URL without scheme gives
          [ValueError]); [urlopen] is not called *)
  | Fetched (remote_status : Z) (content : Py.bytes)
      (** [urlopen] returned a response, with its [status], and [read]
          gave its body *)
  | Failed (e : exn).
      (** [urlopen] or [read] raised *)

(** What the static file server does with a request: [translate_path], the
    look at the file system and at the request headers. *)
Inductive fs_entry : Type :=
  | RegularFile (ctype : Py.str) (content : Py.bytes) (last_modified : Py.str)
      (** a file that opens (or a directory holding an index page) *)
  | NotModified
      (** a file that opens, asked for with an [If-Modified-Since] that is
          not before its last modification *)
  | Missing
      (** nothing that opens *)
  | DirectoryNoSlash (new_url : Py.str)
      (** a directory asked for without the final slash *)
  | DirectoryListing (enc : Py.str) (encoded : Py.bytes)
      (** a directory without index page: its HTML listing *)
  | DirectoryUnreadable
  | Unservable (e : exn).
      (** [send_head] raises before it sends anything: [open] refuses the
          path ([ValueError] for a NUL byte, [UnicodeEncodeError] for a
          lone surrogate), or the listing cannot be encoded *)

(** The fields are not assumed to be independent of each other: the outcome
    of a fetch may depend on the file system ([urllib] serves [file:] URLs).
    Every statement below holds for every world. *)
Record world : Type := {
  urlopen_read : Py.str -> fetch_outcome;
  lookup : Py.str -> fs_entry;
  version_string : Py.str;
  date_time_string : Py.str
}.

(** * The handler object *)

(** A line of [_headers_buffer]. *)
Inductive header_line : Type :=
  | StatusLine (version : Py.str) (code : Z) (message : Py.str)
  | Header (keyword value : Py.str)
  | BlankLine.

(** One [wfile.write]: the flushed header buffer, or content. *)
Inductive written : Type :=
  | HeaderBlock (lines : list header_line)
  | Payload (content : Py.bytes).

(** [urllib.request.Request] as the program builds it, with the timeout
    given to [urlopen]. *)
Record Request : Type := {
  full_url : Py.str;
  headers : list (Py.str * Py.str);
  timeout : Z
}.

Record handler : Type := {
  command : Py.str;                   (** [self.command] *)
  path : Py.str;                      (** [self.path], query string included *)
  headers_buffer : list header_line;  (** [self._headers_buffer] *)
  wfile : list written;               (** what went to the client, in order *)
  fetches : list Request              (** the calls of [urlopen] so far *)
}.

Definition set_headers_buffer (b : list header_line) (h : handler) : handler :=
  {| command := command h; path := path h; headers_buffer := b;
     wfile := wfile h; fetches := fetches h |}.

Definition set_wfile (o : list written) (h : handler) : handler :=
  {| command := command h; path := path h;
     headers_buffer := headers_buffer h; wfile := o; fetches := fetches h |}.

Definition set_fetches (f : list Request) (h : handler) : handler :=
  {| command := command h; path := path h;
     headers_buffer := headers_buffer h; wfile := wfile h; fetches := f |}.

(** The handler as [BaseHTTPRequestHandler.handle_one_request] leaves it
    before it calls [do_GET] or [do_OPTIONS]. *)
Definition new_handler (cmd pth : Py.str) : handler :=
  {| command := cmd; path := pth; headers_buffer := [];
     wfile := []; fetches := [] |}.

(** * Methods: state and exceptions *)

(** A method call ends normally or raises; the attributes it changed stay
    changed in both cases. *)
Inductive result (A : Type) : Type :=
  | Ok (a : A) (h : handler)
  | Raise (e : exn) (h : handler).
Arguments Ok {A} a h.
Arguments Raise {A} e h.

Definition M (A : Type) : Type := handler -> result A.

Definition ret {A} (a : A) : M A := fun h => Ok a h.

Definition bind {A B} (m : M A) (k : A -> M B) : M B :=
  fun h => match m h with
           | Ok a h' => k a h'
           | Raise e h' => Raise e h'
           end.

Definition raise {A} (e : exn) : M A := fun h => Raise e h.

Definition gets {A} (f : handler -> A) : M A := fun h => Ok (f h) h.

Definition modify (f : handler -> handler) : M unit := fun h => Ok tt (f h).

Declare Scope py_scope.
Delimit Scope py_scope with py.
Notation "x <- m ;; k" := (bind m (fun x => k))
  (at level 61, m at next level, right associativity) : py_scope.
Notation "m ;; k" := (bind m (fun _ => k))
  (at level 61, right associativity) : py_scope.
Local Open Scope py_scope.

(** [try: body  except c1 as e: h1  except c2 as e: h2 ...]: the first
    clause whose class the exception is an instance of runs; an exception
    no clause matches, or one raised by the clause itself, goes on. *)
Definition try_except {A} (body : M A)
    (clauses : list (pyclass * (exn -> M A))) : M A :=
  fun h =>
    match body h with
    | Ok a h' => Ok a h'
    | Raise e h' =>
        match find (fun cl => isinstance e (fst cl)) clauses with
        | Some (_, on_exn) => on_exn e h'
        | None => Raise e h'
        end
    end.

(** [l[i]]. *)
Definition getitem {A} (l : list A) (i : nat) : M A :=
  match nth_error l i with
  | Some a => ret a
  | None => raise (Raised IndexError "list index out of range")
  end.

(** [e.code], an attribute of [HTTPError] alone. *)
Definition exn_code (e : exn) : M Z :=
  match e with
  | HTTPError code _ => ret code
  | _ => raise (Raised AttributeError "object has no attribute 'code'")
  end.

(** [self.wfile.write(data)]. *)
Definition wfile_write (data : written) : M unit :=
  modify (fun h => set_wfile (wfile h ++ [data]) h).

(** * [http.server.BaseHTTPRequestHandler] *)

Module BaseHTTPRequestHandler.

(** [responses], built from [http.HTTPStatus]: code to phrase and
    description. *)
Definition HTTPStatus : list (Z * (Py.str * Py.str)) :=
  [
    (100, ("Continue",
      "Request received, please continue"));
    (101, ("Switching Protocols",
      "Switching to new protocol; obey Upgrade header"));
    (102, ("Processing",
      ""));
    (103, ("Early Hints",
      ""));
    (200, ("OK",
      "Request fulfilled, document follows"));
    (201, ("Created",
      "Document created, URL follows"));
    (202, ("Accepted",
      "Request accepted, processing continues off-line"));
    (203, ("Non-Authoritative Information",
      "Request fulfilled from cache"));
    (204, ("No Content",
      "Request fulfilled, nothing follows"));
    (205, ("Reset Content",
      "Clear input form for further input"));
    (206, ("Partial Content",
      "Partial content follows"));
    (207, ("Multi-Status",
      ""));
    (208, ("Already Reported",
      ""));
    (226, ("IM Used",
      ""));
    (300, ("Multiple Choices",
      "Object has several resources -- see URI list"));
    (301, ("Moved Permanently",
      "Object moved permanently -- see URI list"));
    (302, ("Found",
      "Object moved temporarily -- see URI list"));
    (303, ("See Other",
      "Object moved -- see Method and URL list"));
    (304, ("Not Modified",
      "Document has not changed since given time"));
    (305, ("Use Proxy",
      "You must use proxy specified in Location to access this resource"));
    (307, ("Temporary Redirect",
      "Object moved temporarily -- see URI list"));
    (308, ("Permanent Redirect",
      "Object moved permanently -- see URI list"));
    (400, ("Bad Request",
      "Bad request syntax or unsupported method"));
    (401, ("Unauthorized",
      "No permission -- see authorization schemes"));
    (402, ("Payment Required",
      "No payment -- see charging schemes"));
    (403, ("Forbidden",
      "Request forbidden -- authorization will not help"));
    (404, ("Not Found",
      "Nothing matches the given URI"));
    (405, ("Method Not Allowed",
      "Specified method is invalid for this resource"));
    (406, ("Not Acceptable",
      "URI not available in preferred format"));
    (407, ("Proxy Authentication Required",
      "You must authenticate with this proxy before proceeding"));
    (408, ("Request Timeout",
      "Request timed out; try again later"));
    (409, ("Conflict",
      "Request conflict"));
    (410, ("Gone",
      "URI no longer exists and has been permanently removed"));
    (411, ("Length Required",
      "Client must specify Content-Length"));
    (412, ("Precondition Failed",
      "Precondition in headers is false"));
    (413, ("Request Entity Too Large",
      "Entity is too large"));
    (414, ("Request-URI Too Long",
      "URI is too long"));
    (415, ("Unsupported Media Type",
      "Entity body in unsupported format"));
    (416, ("Requested Range Not Satisfiable",
      "Cannot satisfy request range"));
    (417, ("Expectation Failed",
      "Expect condition could not be satisfied"));
    (418, ("I'm a Teapot",
      "Server refuses to brew coffee because it is a teapot."));
    (421, ("Misdirected Request",
      "Server is not able to produce a response"));
    (422, ("Unprocessable Entity",
      ""));
    (423, ("Locked",
      ""));
    (424, ("Failed Dependency",
      ""));
    (425, ("Too Early",
      ""));
    (426, ("Upgrade Required",
      ""));
    (428, ("Precondition Required",
      "The origin server requires the request to be conditional"));
    (429, ("Too Many Requests",
      ("The user has sent too many requests in a given amount of time (" ++ Py.dquote ++ "rate limiting" ++ Py.dquote ++ ")")));
    (431, ("Request Header Fields Too Large",
      "The server is unwilling to process the request because its header fields are too large"));
    (451, ("Unavailable For Legal Reasons",
      "The server is denying access to the resource as a consequence of a legal demand"));
    (500, ("Internal Server Error",
      "Server got itself in trouble"));
    (501, ("Not Implemented",
      "Server does not support this operation"));
    (502, ("Bad Gateway",
      "Invalid responses from another server/proxy"));
    (503, ("Service Unavailable",
      "The server cannot process the request due to a high load"));
    (504, ("Gateway Timeout",
      "The gateway server did not receive a timely response"));
    (505, ("HTTP Version Not Supported",
      "Cannot fulfill request"));
    (506, ("Variant Also Negotiates",
      ""));
    (507, ("Insufficient Storage",
      ""));
    (508, ("Loop Detected",
      ""));
    (510, ("Not Extended",
      ""));
    (511, ("Network Authentication Required",
      "The client needs to authenticate to gain network access"))
  ].

Fixpoint lookup_status (t : list (Z * (Py.str * Py.str))) (code : Z)
    : option (Py.str * Py.str) :=
  match t with
  | [] => None
  | (c, entry) :: rest =>
      if c =? code then Some entry else lookup_status rest code
  end.

Definition responses (code : Z) : option (Py.str * Py.str) :=
  lookup_status HTTPStatus code.

Definition protocol_version : Py.str := "HTTP/1.0".

Definition error_content_type : Py.str := "text/html;charset=utf-8".

(** [error_message_format % {"code": ..., "message": ..., "explain": ...}] *)
Definition error_message_format (code : Z) (message explain : Py.str)
    : Py.str :=
  "<!DOCTYPE HTML>
<html lang=" ++ Py.dquote ++ "en" ++ Py.dquote ++ ">
    <head>
        <meta charset=" ++ Py.dquote ++ "utf-8" ++ Py.dquote ++ ">
        <title>Error response</title>
    </head>
    <body>
        <h1>Error response</h1>
        <p>Error code: " ++ Py.str_of_int code ++ "</p>
        <p>Message: " ++ message ++ ".</p>
        <p>Error code explanation: " ++ Py.str_of_int code ++ " - "
      ++ explain ++ ".</p>
    </body>
</html>
".

Section Methods.

Variable W : world.

(** [self.end_headers], which a subclass may override. *)
Variable self_end_headers : M unit.

(** The status line is encoded with [encode("latin-1", "strict")]; the
    version and the code are ASCII, so the message decides. *)
Definition send_response_only (code : Z) (message : option Py.str)
    : M unit :=
  let message :=
    match message with
    | Some m => m
    | None => match responses code with
              | Some (phrase, _) => phrase
              | None => ""
              end
    end in
  if Py.latin1_encodable message then
    modify (fun h =>
      set_headers_buffer
        (headers_buffer h ++ [StatusLine protocol_version code message]) h)
  else
    raise (Raised UnicodeEncodeError
             "'latin-1' codec can't encode character").

(** Header lines are encoded the same way.  Every header value of this
    program is Latin-1 text (a literal, or a version, date, length, MIME
    type or request path put together by the library), so that encoding
    succeeds; [close_connection] is not observed here. *)
Definition send_header (keyword value : Py.str) : M unit :=
  modify (fun h =>
    set_headers_buffer (headers_buffer h ++ [Header keyword value]) h).

(** [log_request] writes to the log only. *)
Definition send_response (code : Z) (message : option Py.str) : M unit :=
  send_response_only code message ;;
  send_header "Server" (version_string W) ;;
  send_header "Date" (date_time_string W).

Definition flush_headers : M unit :=
  buf <- gets headers_buffer ;;
  wfile_write (HeaderBlock buf) ;;
  modify (set_headers_buffer []).

Definition end_headers : M unit :=
  modify (fun h =>
    set_headers_buffer (headers_buffer h ++ [BlankLine]) h) ;;
  flush_headers.

(** Whether [send_error] builds a body for the code. *)
Definition has_body (code : Z) : bool :=
  (200 <=? code)
  && negb ((code =? 204) || (code =? 205) || (code =? 304)).

Definition send_error (code : Z) (message explain : option Py.str)
    : M unit :=
  let '(shortmsg, longmsg) :=
    match responses code with
    | Some entry => entry
    | None => ("???", "???")
    end in
  let message := match message with Some m => m | None => shortmsg end in
  let explain := match explain with Some x => x | None => longmsg end in
  send_response code (Some message) ;;
  send_header "Connection" "close" ;;
  body <-
    (if has_body code then
       let content :=
         error_message_format code (Py.html_escape message)
                              (Py.html_escape explain) in
       send_header "Content-Type" error_content_type ;;
       send_header "Content-Length" (Py.str_of_int (Py.len content)) ;;
       ret (Some content)
     else ret None) ;;
  self_end_headers ;;
  cmd <- gets command ;;
  match body with
  | Some content =>
      if negb (String.eqb cmd "HEAD") && negb (Py.is_empty content)
      then wfile_write (Payload content)
      else ret tt
  | None => ret tt
  end.

End Methods.

End BaseHTTPRequestHandler.

(** * [http.server.SimpleHTTPRequestHandler] *)

Module SimpleHTTPRequestHandler.

Import BaseHTTPRequestHandler.

Section Methods.

Variable W : world.
Variable self_end_headers : M unit.

(** [send_head] and [list_directory]: the status line and the headers;
    the result is the content still to be copied, if any. *)
Definition send_head : M (option Py.bytes) :=
  p <- gets path ;;
  match lookup W p with
  | DirectoryNoSlash new_url =>
      send_response W 301 None ;;
      send_header "Location" new_url ;;
      send_header "Content-Length" "0" ;;
      self_end_headers ;;
      ret None
  | DirectoryUnreadable =>
      send_error W self_end_headers 404
                 (Some "No permission to list directory") None ;;
      ret None
  | DirectoryListing enc encoded =>
      send_response W 200 None ;;
      send_header "Content-type" ("text/html; charset=" ++ enc) ;;
      send_header "Content-Length" (Py.str_of_int (Py.len encoded)) ;;
      self_end_headers ;;
      ret (Some encoded)
  | Missing =>
      send_error W self_end_headers 404 (Some "File not found") None ;;
      ret None
  | RegularFile ctype content last_modified =>
      send_response W 200 None ;;
      send_header "Content-type" ctype ;;
      send_header "Content-Length" (Py.str_of_int (Py.len content)) ;;
      send_header "Last-Modified" last_modified ;;
      self_end_headers ;;
      ret (Some content)
  | NotModified =>
      send_response W 304 None ;;
      self_end_headers ;;
      ret None
  | Unservable e => raise e
  end.

(** [copyfile] moves the content to [wfile]. *)
Definition do_GET : M unit :=
  f <- send_head ;;
  match f with
  | Some content => wfile_write (Payload content)
  | None => ret tt
  end.

(** [do_HEAD]: the headers of [send_head]; the file is closed unread. *)
Definition do_HEAD : M unit :=
  _ <- send_head ;;
  ret tt.

End Methods.

End SimpleHTTPRequestHandler.


(** * [CORSProxyHandler], the program *)

Module CORSProxyHandler.

Section Methods.

Variable W : world.

(** [[
    def end_headers(self):
        # Add CORS headers to all responses
        if not self.path.startswith('/proxy'):
            self.send_header('Access-Control-Allow-Origin', '*')
        super().end_headers()
    ]] *)
Definition end_headers : M unit :=
  p <- gets path ;;
  (if negb (Py.startswith p "/proxy")
   then BaseHTTPRequestHandler.send_header "Access-Control-Allow-Origin" "*"
   else ret tt) ;;
  BaseHTTPRequestHandler.end_headers.

(** The inherited methods, with [self.end_headers] bound to the override. *)
Definition send_response : Z -> option Py.str -> M unit :=
  BaseHTTPRequestHandler.send_response W.

Definition send_header : Py.str -> Py.str -> M unit :=
  BaseHTTPRequestHandler.send_header.

Definition send_error (code : Z) (message : Py.str) : M unit :=
  BaseHTTPRequestHandler.send_error W end_headers code (Some message) None.

(** [urllib.request.Request(url, headers=...)]: the URL is checked and the
    request object built; nothing goes out yet. *)
Definition make_Request (url : Py.str) (hdrs : list (Py.str * Py.str))
    : M Request :=
  match urlopen_read W url with
  | Rejected e => raise e
  | _ => ret {| full_url := url; headers := hdrs; timeout := 30 |}
  end.

(** [urllib.request.urlopen(req, timeout=30)] and [response.read()] in the
    [with] block: [urlopen] is called, and the world answers. *)
Definition urlopen (req : Request) : M Py.bytes :=
  modify (fun h => set_fetches (fetches h ++ [req]) h) ;;
  match urlopen_read W (full_url req) with
  | Fetched _ content => ret content
  | Failed e => raise e
  | Rejected e => raise e
  end.

(** The [try] block of [handle_proxy_request]. *)
Definition proxy_body : M unit :=
  (* Extract URL from query parameter *)
  p <- gets path ;;
  query <- getitem (Py.split1 "?" p) 1 ;;
  let params := urllib_parse.parse_qs query in
  target_url <-
    getitem (match urllib_parse.dict_get params "url" with
             | Some values => values
             | None => [""]
             end) 0 ;;
  if Py.is_empty target_url then
    send_error 400 "Missing url parameter"
  else
    (* Fetch the target URL *)
    req <- make_Request target_url [("User-Agent", "Mozilla/5.0")] ;;
    content <- urlopen req ;;
    (* Send CORS-enabled response *)
    send_response 200 None ;;
    send_header "Content-Type" "text/xml; charset=utf-8" ;;
    send_header "Access-Control-Allow-Origin" "*" ;;
    send_header "Access-Control-Allow-Methods" "GET, OPTIONS" ;;
    send_header "Access-Control-Allow-Headers" "Content-Type" ;;
    end_headers ;;
    wfile_write (Payload content).

(** [[
    except HTTPError as e:
        self.send_error(e.code, str(e))
    except URLError as e:
        self.send_error(502, f"Failed to fetch: {str(e)}")
    except Exception as e:
        self.send_error(500, f"Server error: {str(e)}")
    ]] *)
Definition handle_proxy_request : M unit :=
  try_except proxy_body
    [ (HTTPError_class,
       fun e => code <- exn_code e ;; send_error code (exn_str e));
      (URLError_class,
       fun e => send_error 502 ("Failed to fetch: " ++ exn_str e));
      (Builtin Exception,
       fun e => send_error 500 ("Server error: " ++ exn_str e)) ].

(** [[
    def do_GET(self):
        # Check if this is a proxy request
        if self.path.startswith('/proxy?url='):
            self.handle_proxy_request()
        else:
            # Serve static files normally
            super().do_GET()
    ]] *)
Definition do_GET : M unit :=
  p <- gets path ;;
  if Py.startswith p "/proxy?url=" then handle_proxy_request
  else SimpleHTTPRequestHandler.do_GET W end_headers.

(** [[
    def do_OPTIONS(self):
        # Handle CORS preflight
        self.send_response(200)
        self.send_header('Access-Control-Allow-Origin', '*')
        self.send_header('Access-Control-Allow-Methods', 'GET, OPTIONS')
        self.send_header('Access-Control-Allow-Headers', 'Content-Type')
        self.end_headers()
    ]] *)
Definition do_OPTIONS : M unit :=
  send_response 200 None ;;
  send_header "Access-Control-Allow-Origin" "*" ;;
  send_header "Access-Control-Allow-Methods" "GET, OPTIONS" ;;
  send_header "Access-Control-Allow-Headers" "Content-Type" ;;
  end_headers.

End Methods.

End CORSProxyHandler.

(** * Requests and responses as the client sees them *)

(** A GET or an OPTIONS request for a path, served by a fresh handler. *)
Definition GET (W : world) (pth : Py.str) : result unit :=
  CORSProxyHandler.do_GET W (new_handler "GET" pth).

Definition OPTIONS (W : world) (pth : Py.str) : result unit :=
  CORSProxyHandler.do_OPTIONS W (new_handler "OPTIONS" pth).

(** The class defines no [do_HEAD]: a HEAD request runs the inherited one,
    with [self.end_headers] bound to the override. *)
Definition HEAD (W : world) (pth : Py.str) : result unit :=
  SimpleHTTPRequestHandler.do_HEAD W CORSProxyHandler.end_headers
    (new_handler "HEAD" pth).

Definition final {A} (r : result A) : handler :=
  match r with Ok _ h => h | Raise _ h => h end.

(** Whether the method let an exception out. *)
Definition escaped {A} (r : result A) : option exn :=
  match r with Ok _ _ => None | Raise e _ => Some e end.

Record response : Type := {
  status : Z;
  reason : Py.str;                      (** the message of the status line *)
  fields : list (Py.str * Py.str);      (** the header fields, in order *)
  body : Py.bytes
}.

Fixpoint header_fields (lines : list header_line) : list (Py.str * Py.str) :=
  match lines with
  | [] => []
  | Header k v :: rest => (k, v) :: header_fields rest
  | _ :: rest => header_fields rest
  end.

(** The content written after the header block; [None] if a second header
    block went out. *)
Fixpoint payloads (out : list written) : option Py.bytes :=
  match out with
  | [] => Some ""
  | Payload c :: rest =>
      match payloads rest with Some r => Some (c ++ r) | None => None end
  | HeaderBlock _ :: _ => None
  end.

(** What was written, read as one HTTP response: a header block that opens
    with a status line and closes with the blank line, then content. *)
Definition response_of (out : list written) : option response :=
  match out with
  | HeaderBlock (StatusLine _ code message :: lines) :: rest =>
      match last lines BlankLine, payloads rest with
      | BlankLine, Some content =>
          Some {| status := code; reason := message;
                  fields := header_fields lines; body := content |}
      | _, _ => None
      end
  | _ => None
  end.

(** The response to a request, if the handler sent one. *)
Definition sent {A} (r : result A) : option response :=
  response_of (wfile (final r)).

(** [name: value] is among the header fields. *)
Definition has_header (r : response) (name value : Py.str) : Prop :=
  In (name, value) (fields r).

Definition cors_names : list Py.str :=
  [ "Access-Control-Allow-Origin";
    "Access-Control-Allow-Methods";
    "Access-Control-Allow-Headers" ].

(** The header fields whose name is one of the three CORS names. *)
Definition cors_fields (r : response) : list (Py.str * Py.str) :=
  filter (fun kv => existsb (String.eqb (fst kv)) cors_names) (fields r).

(** All three CORS headers, with the values the program gives them. *)
Definition has_cors (r : response) : Prop :=
  has_header r "Access-Control-Allow-Origin" "*" /\
  has_header r "Access-Control-Allow-Methods" "GET, OPTIONS" /\
  has_header r "Access-Control-Allow-Headers" "Content-Type".

(** The target URL the proxy route reads off a path: the first value that
    [parse_qs] keeps under the name [url], the empty string if none. *)
Definition target_url (pth : Py.str) : Py.str :=
  match Py.split1 "?" pth with
  | [_; query] =>
      match urllib_parse.dict_get (urllib_parse.parse_qs query) "url" with
      | Some (v :: _) => v
      | _ => ""
      end
  | _ => ""
  end.

(** The decoded values of the query parameters named [url], blank ones
    included, in the order of the query string. *)
Definition url_parameters (pth : Py.str) : list Py.str :=
  match Py.split1 "?" pth with
  | [_; query] =>
      flat_map
        (fun name_value =>
           match Py.split1 "=" name_value with
           | [n; v] =>
               if String.eqb
                    (urllib_parse.unquote (Py.replace_char "+" " " n)) "url"
               then [urllib_parse.unquote (Py.replace_char "+" " " v)]
               else []
           | _ => []
           end)
        (Py.split "&" query)
  | _ => []
  end.

(** ** What [send_error] sends *)

(** The long explanation [send_error] takes from [responses]. *)
Definition explain_of (code : Z) : Py.str :=
  match BaseHTTPRequestHandler.responses code with
  | Some (_, longmsg) => longmsg
  | None => "???"
  end.

(** The HTML page of an error: the message and the explanation, escaped. *)
Definition error_page (code : Z) (message : Py.str) : Py.bytes :=
  BaseHTTPRequestHandler.error_message_format code
    (Py.html_escape message) (Py.html_escape (explain_of code)).

(** The body of an error response: the page, or nothing for the codes that
    take no body. *)
Definition error_body (code : Z) (message : Py.str) : Py.bytes :=
  if BaseHTTPRequestHandler.has_body code then error_page code message
  else "".

(** The header fields [send_error] itself puts into an error response. *)
Definition error_fields (W : world) (code : Z) (message : Py.str)
    : list (Py.str * Py.str) :=
  [ ("Server", version_string W); ("Date", date_time_string W);
    ("Connection", "close") ]
  ++ (if BaseHTTPRequestHandler.has_body code
      then [ ("Content-Type", BaseHTTPRequestHandler.error_content_type);
             ("Content-Length",
              Py.str_of_int (Py.len (error_page code message))) ]
      else [])%list.

(** What [end_headers] adds for a path. *)
Definition injected (pth : Py.str) : list (Py.str * Py.str) :=
  if Py.startswith pth "/proxy" then []
  else [("Access-Control-Allow-Origin", "*")].

(** The error response for a request path. *)
Definition error_response (W : world) (pth : Py.str) (code : Z)
    (message : Py.str) : response :=
  {| status := code; reason := message;
     fields := (error_fields W code message ++ injected pth)%list;
     body := error_body code message |}.

(** ** The states a request leaves behind *)

(** The handler after [send_error] sent the error response. *)
Definition after_error (W : world) (code : Z) (message : Py.str)
    (h : handler) : handler :=
  set_wfile
    ((wfile h ++
      [HeaderBlock
         (StatusLine BaseHTTPRequestHandler.protocol_version code message
          :: map (fun kv => Header (fst kv) (snd kv))
               (error_fields W code message ++ injected (path h))
          ++ [BlankLine])])
     ++ (if BaseHTTPRequestHandler.has_body code
         then [Payload (error_page code message)] else []))%list h.

(** The outbound request for a target. *)
Definition proxy_request (t : Py.str) : Request :=
  {| full_url := t; headers := [("User-Agent", "Mozilla/5.0")];
     timeout := 30 |}.

(** The handler of a proxy request once [urlopen] was called. *)
Definition fetching (pth : Py.str) : handler :=
  set_fetches [proxy_request (target_url pth)] (new_handler "GET" pth).

(** The header fields of a relayed response. *)
Definition relayed_fields (W : world) : list (Py.str * Py.str) :=
  [ ("Server", version_string W); ("Date", date_time_string W);
    ("Content-Type", "text/xml; charset=utf-8");
    ("Access-Control-Allow-Origin", "*");
    ("Access-Control-Allow-Methods", "GET, OPTIONS");
    ("Access-Control-Allow-Headers", "Content-Type") ].

Definition relayed (W : world) (content : Py.bytes) : list written :=
  [ HeaderBlock
      (StatusLine BaseHTTPRequestHandler.protocol_version 200 "OK"
       :: map (fun kv => Header (fst kv) (snd kv)) (relayed_fields W)
       ++ [BlankLine]);
    Payload content ].

(** The [except] clause that takes an exception: the status and the message
    it gives to [send_error]; [None] when no clause matches. *)
Definition clause_of (e : exn) : option (Z * Py.str) :=
  match e with
  | HTTPError code _ => Some (code, exn_str e)
  | URLError _ => Some (502, "Failed to fetch: " ++ exn_str e)
  | Raised _ _ =>
      if isinstance e (Builtin Exception)
      then Some (500, "Server error: " ++ exn_str e)
      else None
  end.

(** Two invariants of the dictionary [parse_qs] builds: no name has an
    empty list, and every value kept under a name comes from a pair with
    that name. *)
Definition nonempty_values (d : urllib_parse.dict) : Prop :=
  Forall (fun kv => snd kv <> []) d.

Definition values_from (pairs : list (Py.str * Py.str))
    (d : urllib_parse.dict) : Prop :=
  forall k vs v,
    urllib_parse.dict_get d k = Some vs -> In v vs -> In (k, v) pairs.

(** The values of the pairs with a given name, in order. *)
Definition values_of (k : Py.str) (pairs : list (Py.str * Py.str))
    : list Py.str :=
  map snd (filter (fun kv => String.eqb (fst kv) k) pairs).

(** The values that are not blank. *)
Definition nonblank (values : list Py.str) : list Py.str :=
  filter (fun v => negb (Py.is_empty v)) values.

(** [unquote_plus(s)]: what [parse_qsl] does to a name and to a value. *)
Definition unquote_plus (s : Py.str) : Py.str :=
  urllib_parse.unquote (Py.replace_char "+" " " s).

(** ** A sample world *)

Definition epoch : Py.str := "Thu, 01 Jan 1970 00:00:00 GMT".

(** U+4F60 in UTF-8. *)
Definition ni : Py.str :=
  String (Py.chr 228) (String (Py.chr 189) (String (Py.chr 160) "")).

(** One server [a] with an XML document, a page that is gone and one that
    answers 304; a host that does not resolve; and [urllib] refusing a URL
    without a scheme ([Request] raises [ValueError]).  On disk, two pages
    and a directory; a path with a NUL byte, which [open] refuses. *)
Definition sample_world : world :=
  {| urlopen_read := fun u =>
       if String.eqb u "http://a/x.xml" then Fetched 200 "<x/>"
       else if String.eqb u "http://a/empty" then Fetched 204 ""
       else if String.eqb u "http://a/gone"
         then Failed (HTTPError 404 "Not Found")
       else if String.eqb u "http://a/cached"
         then Failed (HTTPError 304 "Not Modified")
       else if Py.contains_char ":" u
         then Failed (URLError "[Errno -2] Name or service not known")
       else Rejected (Raised ValueError ("unknown url type: '" ++ u ++ "'"));
     lookup := fun p =>
       if String.eqb p "/index.html"
         then RegularFile "text/html" "<html/>" epoch
       else if String.eqb p "/proxy.html"
         then RegularFile "text/html" "<p/>" epoch
       else if String.eqb p "/docs" then DirectoryNoSlash "/docs/"
       else if String.eqb p "/%00"
         then Unservable (Raised ValueError "embedded null byte")
       else Missing;
     version_string := "SimpleHTTP/0.6 Python/3.11.2";
     date_time_string := epoch |}.

(** * Proofs *)

(** ** Running the methods *)

Ltac unfold_methods :=
  cbv beta iota zeta delta
   [GET OPTIONS sent escaped final
    CORSProxyHandler.do_GET CORSProxyHandler.do_OPTIONS
    CORSProxyHandler.handle_proxy_request CORSProxyHandler.proxy_body
    CORSProxyHandler.urlopen CORSProxyHandler.make_Request
    CORSProxyHandler.end_headers CORSProxyHandler.send_error
    CORSProxyHandler.send_response CORSProxyHandler.send_header
    SimpleHTTPRequestHandler.do_GET SimpleHTTPRequestHandler.send_head
    BaseHTTPRequestHandler.send_error BaseHTTPRequestHandler.send_response
    BaseHTTPRequestHandler.send_response_only
    BaseHTTPRequestHandler.send_header BaseHTTPRequestHandler.end_headers
    BaseHTTPRequestHandler.flush_headers
    try_except getitem exn_code wfile_write bind ret raise gets modify
    new_handler set_headers_buffer set_wfile set_fetches
    command path headers_buffer wfile fetches] in *.

(** [send_error] with a message that fits the status line, on a handler that
    has buffered nothing: one header block and, for a code that takes a
    body, the page. *)
Lemma send_error_sends W code message h :
  Py.latin1_encodable message = true ->
  headers_buffer h = [] ->
  command h = "GET" ->
  CORSProxyHandler.send_error W code message h
  = Ok tt (after_error W code message h).
Proof.
  intros Henc Hbuf Hcmd. destruct h as [cmd pth buf out fs]. cbn in Hbuf, Hcmd. subst.
  unfold after_error, error_fields, injected, error_page, explain_of.
  unfold_methods.
  rewrite Henc.
  destruct (BaseHTTPRequestHandler.responses code) as [[shortmsg longmsg]|];
  destruct (BaseHTTPRequestHandler.has_body code);
  unfold Py.startswith; destruct (prefix "/proxy" pth); cbn; rewrite ?app_nil_r; reflexivity.
Qed.

(** [send_error] with a message that does not fit the status line raises
    before anything is buffered or written. *)
Lemma send_error_raises W code message h :
  Py.latin1_encodable message = false ->
  CORSProxyHandler.send_error W code message h
  = Raise (Raised UnicodeEncodeError "'latin-1' codec can't encode character") h.
Proof.
  intros Henc. unfold_methods. rewrite Henc.
  destruct (BaseHTTPRequestHandler.responses code) as [[shortmsg longmsg]|]; reflexivity.
Qed.

(** Reading the header block back. *)
Lemma header_fields_map (l : list (Py.str * Py.str)) (tail : list header_line) :
  header_fields (map (fun kv => Header (fst kv) (snd kv)) l ++ tail)
  = (l ++ header_fields tail)%list.
Proof.
  induction l as [|[k v] l IH]; cbn; [reflexivity|]. now rewrite IH.
Qed.

Lemma append_empty_r (s : string) : s ++ "" = s.
Proof. induction s as [|c s IH]; cbn; [reflexivity|now rewrite IH]. Qed.

Lemma response_after_error W code message h :
  wfile h = [] ->
  response_of (wfile (after_error W code message h))
  = Some (error_response W (path h) code message).
Proof.
  intros Hw. unfold after_error, error_response, error_body, response_of.
  cbn [wfile set_wfile]. rewrite Hw. cbn [app].
  rewrite last_last, header_fields_map. cbn [header_fields]. rewrite app_nil_r.
  destruct (BaseHTTPRequestHandler.has_body code); cbn [payloads];
    rewrite ?append_empty_r; reflexivity.
Qed.

(** A string starts with a prefix when it is the prefix followed by a rest. *)
Lemma startswith_app (s p : string) :
  Py.startswith s p = true -> exists rest, s = p ++ rest.
Proof.
  unfold Py.startswith. revert s.
  induction p as [|c p IH]; intros s H.
  - exists s. reflexivity.
  - destruct s as [|d s]; simpl in H; [discriminate|].
    destruct (ascii_dec c d) as [->|]; [|discriminate].
    destruct (IH s H) as [rest ->]. exists rest. reflexivity.
Qed.

(** No name of the dictionary of [parse_qs] has an empty list of values. *)
Lemma dict_add_nonempty d k v :
  nonempty_values d -> nonempty_values (urllib_parse.dict_add d k v).
Proof.
  unfold nonempty_values. induction 1 as [|[k' vs] d Hk Hd IH]; cbn.
  - constructor; [cbn; discriminate|constructor].
  - destruct (String.eqb k' k); constructor; cbn in *; auto.
    now destruct vs.
Qed.

Lemma fold_dict_add_nonempty pairs d :
  nonempty_values d ->
  nonempty_values
    (fold_left (fun d '(name, value) => urllib_parse.dict_add d name value)
               pairs d).
Proof.
  revert d. induction pairs as [|[n v] pairs IH]; intros d Hd; cbn; [assumption|].
  apply IH, dict_add_nonempty, Hd.
Qed.

Lemma dict_get_In d k vs :
  urllib_parse.dict_get d k = Some vs -> exists k', In (k', vs) d.
Proof.
  induction d as [|[k' vs'] d IH]; cbn; [discriminate|].
  destruct (String.eqb k' k).
  - intros [= <-]. exists k'. now left.
  - intros H. destruct (IH H) as [k'' Hin]. exists k''. now right.
Qed.

Lemma parse_qs_values_nonempty qs k vs :
  urllib_parse.dict_get (urllib_parse.parse_qs qs) k = Some vs -> vs <> [].
Proof.
  intros H. destruct (dict_get_In _ _ _ H) as [k' Hin].
  assert (Hne : nonempty_values (urllib_parse.parse_qs qs))
    by (apply fold_dict_add_nonempty; constructor).
  unfold nonempty_values in Hne. rewrite Forall_forall in Hne.
  exact (Hne _ Hin).
Qed.

(** The [try] block on a proxy-route path: the 400 answer when the target
    is empty, otherwise, by what [urllib] does with the target, the
    exception of [Request], the relayed response, or the exception of
    [urlopen]. *)
Lemma proxy_body_run W p :
  Py.startswith p "/proxy?url=" = true ->
  CORSProxyHandler.proxy_body W (new_handler "GET" p) =
  if Py.is_empty (target_url p) then
    CORSProxyHandler.send_error W 400 "Missing url parameter" (new_handler "GET" p)
  else
    match urlopen_read W (target_url p) with
    | Rejected e => Raise e (new_handler "GET" p)
    | Fetched _ content => Ok tt (set_wfile (relayed W content) (fetching p))
    | Failed e => Raise e (fetching p)
    end.
Proof.
  intros Hp. destruct (startswith_app _ _ Hp) as [rest ->].
  unfold fetching, relayed, relayed_fields, proxy_request, target_url.
  unfold CORSProxyHandler.proxy_body.
  cbv beta iota zeta delta [bind gets getitem new_handler path]. 
  change (Py.split1 "?" ("/proxy?url=" ++ rest)) with ["/proxy"; "url=" ++ rest].
  cbn [nth_error].  cbv beta iota zeta delta [ret].
  destruct (urllib_parse.dict_get (urllib_parse.parse_qs ("url=" ++ rest)) "url")
    as [[|v vs]|] eqn:Hget.
  - exfalso. exact (parse_qs_values_nonempty _ _ _ Hget eq_refl).
  - cbn [nth_error]. destruct (Py.is_empty v) eqn:Hv; [reflexivity|].
    unfold_methods.
    destruct (urlopen_read W v) as [e|st content|e] eqn:Hw;
      cbv beta iota; cbn [full_url]; rewrite ?Hw; reflexivity.
  - reflexivity.
Qed.

(** The routing rule of [do_GET]. *)
Lemma GET_proxy_route W p :
  Py.startswith p "/proxy?url=" = true ->
  GET W p = CORSProxyHandler.handle_proxy_request W (new_handler "GET" p).
Proof.
  intros Hp. unfold GET, CORSProxyHandler.do_GET, bind, gets.
  cbn [path new_handler]. now rewrite Hp.
Qed.

Lemma GET_static W p :
  Py.startswith p "/proxy?url=" = false ->
  GET W p = SimpleHTTPRequestHandler.do_GET W CORSProxyHandler.end_headers
              (new_handler "GET" p).
Proof.
  intros Hp. unfold GET, CORSProxyHandler.do_GET, bind, gets.
  cbn [path new_handler]. now rewrite Hp.
Qed.

Lemma GET_missing_parameter W p :
  Py.startswith p "/proxy?url=" = true ->
  Py.is_empty (target_url p) = true ->
  GET W p = Ok tt (after_error W 400 "Missing url parameter" (new_handler "GET" p)).
Proof.
  intros Hp Ht. rewrite (GET_proxy_route _ _ Hp).
  unfold CORSProxyHandler.handle_proxy_request, try_except.
  rewrite (proxy_body_run _ _ Hp), Ht.
  rewrite send_error_sends; reflexivity.
Qed.

Lemma GET_fetched W p st content :
  Py.startswith p "/proxy?url=" = true ->
  Py.is_empty (target_url p) = false ->
  urlopen_read W (target_url p) = Fetched st content ->
  GET W p = Ok tt (set_wfile (relayed W content) (fetching p)).
Proof.
  intros Hp Ht Hf. rewrite (GET_proxy_route _ _ Hp).
  unfold CORSProxyHandler.handle_proxy_request, try_except.
  now rewrite (proxy_body_run _ _ Hp), Ht, Hf.
Qed.

(** A failed fetch is handed to the first [except] clause that matches. *)
Lemma GET_failed W p e :
  Py.startswith p "/proxy?url=" = true ->
  Py.is_empty (target_url p) = false ->
  urlopen_read W (target_url p) = Failed e ->
  GET W p =
  match clause_of e with
  | Some (code, message) => CORSProxyHandler.send_error W code message (fetching p)
  | None => Raise e (fetching p)
  end.
Proof.
  intros Hp Ht Hf. rewrite (GET_proxy_route _ _ Hp).
  unfold CORSProxyHandler.handle_proxy_request, try_except.
  rewrite (proxy_body_run _ _ Hp), Ht, Hf.
  destruct e as [code msg|reason|b text]; try reflexivity.
  destruct b; reflexivity.
Qed.

(** So is the exception of [Request], before [urlopen] is called. *)
Lemma GET_rejected W p e :
  Py.startswith p "/proxy?url=" = true ->
  Py.is_empty (target_url p) = false ->
  urlopen_read W (target_url p) = Rejected e ->
  GET W p =
  match clause_of e with
  | Some (code, message) =>
      CORSProxyHandler.send_error W code message (new_handler "GET" p)
  | None => Raise e (new_handler "GET" p)
  end.
Proof.
  intros Hp Ht Hf. rewrite (GET_proxy_route _ _ Hp).
  unfold CORSProxyHandler.handle_proxy_request, try_except.
  rewrite (proxy_body_run _ _ Hp), Ht, Hf.
  destruct e as [code msg|reason|b text]; try reflexivity.
  destruct b; reflexivity.
Qed.

(** ** Latin-1 *)

(** What can be encoded: concatenations, Latin-1 decoded bytes, decimal
    numbers, and so the string form of an [HTTPError]. *)
Lemma latin1_encodable_app (a b : string) :
  Py.latin1_encodable (a ++ b)
  = Py.latin1_encodable a && Py.latin1_encodable b.
Proof.
  induction a as [|c a IH]; cbn [append Py.latin1_encodable]; [reflexivity|].
  now rewrite IH, andb_assoc.
Qed.

Lemma latin1_decode_encodable (b : Py.bytes) :
  Py.latin1_encodable (Py.latin1_decode b) = true.
Proof.
  induction b as [|c b IH]; [reflexivity|].
  cbn [Py.latin1_decode].
  destruct (Py.ord c <? 128) eqn:Hc; cbn [Py.latin1_encodable]; rewrite IH.
  - apply Z.ltb_lt in Hc. rewrite andb_true_r. apply Z.ltb_lt. lia.
  - clear IH Hc. destruct c as [[] [] [] [] [] [] [] []]; reflexivity.
Qed.

Lemma string_of_uint_encodable (d : Decimal.uint) :
  Py.latin1_encodable (NilEmpty.string_of_uint d) = true.
Proof. induction d; cbn; auto. Qed.

Lemma str_of_int_encodable (n : Z) :
  Py.latin1_encodable (Py.str_of_int n) = true.
Proof.
  unfold Py.str_of_int, NilZero.string_of_int, NilZero.string_of_uint.
  destruct (Z.to_int n) as [d|d]; cbn [Py.latin1_encodable];
    destruct d; try reflexivity; apply string_of_uint_encodable.
Qed.

Lemma HTTPError_str_encodable code msg :
  Py.latin1_encodable (exn_str (HTTPError code msg)) = true.
Proof.
  cbn [exn_str]. rewrite !latin1_encodable_app.
  now rewrite str_of_int_encodable, latin1_decode_encodable.
Qed.

(** ** [unquote] keeps a text that is not empty from becoming empty *)

Lemma is_empty_app (a b : string) :
  Py.is_empty (a ++ b) = Py.is_empty a && Py.is_empty b.
Proof. destruct a; reflexivity. Qed.

Lemma is_empty_true (s : string) : Py.is_empty s = true -> s = "".
Proof. destruct s; [reflexivity|discriminate]. Qed.

Lemma utf8_pending_nonempty (b : Py.bytes) :
  forall seen need lo hi,
    Py.is_empty (urllib_parse.utf8_decode_from
                   (urllib_parse.Pending seen need lo hi) b) = false.
Proof.
  induction b as [|c b IH]; intros seen need lo hi; [reflexivity|].
  cbn [urllib_parse.utf8_decode_from].
  destruct ((lo <=? Py.ord c) && (Py.ord c <=? hi)).
  - destruct need as [|[|n]]; [| |apply IH];
      rewrite !is_empty_app; cbn; apply andb_false_r.
  - destruct (urllib_parse.utf8_lead c). reflexivity.
Qed.

Lemma utf8_lead_progress (c : ascii) :
  Py.is_empty (fst (urllib_parse.utf8_lead c)) = false \/
  exists seen need lo hi,
    snd (urllib_parse.utf8_lead c) = urllib_parse.Pending seen need lo hi.
Proof.
  unfold urllib_parse.utf8_lead.
  repeat match goal with
         | |- context [if ?b then _ else _] => destruct b
         end; cbn [fst snd];
    first [left; reflexivity | right; do 4 eexists; reflexivity].
Qed.

Lemma utf8_decode_nonempty (b : Py.bytes) :
  Py.is_empty b = false ->
  Py.is_empty (urllib_parse.utf8_decode_replace b) = false.
Proof.
  destruct b as [|c b]; [discriminate|]. intros _.
  unfold urllib_parse.utf8_decode_replace. cbn [urllib_parse.utf8_decode_from].
  destruct (utf8_lead_progress c) as [H|(seen & need & lo & hi & H)];
    destruct (urllib_parse.utf8_lead c) as [out st]; cbn [fst snd] in H.
  - now rewrite is_empty_app, H.
  - subst st. rewrite is_empty_app, utf8_pending_nonempty. apply andb_false_r.
Qed.

Lemma unquote_item_nonempty (item : string) :
  Py.is_empty (urllib_parse.unquote_item item) = false.
Proof.
  unfold urllib_parse.unquote_item.
  destruct item as [|a [|b rest]]; try reflexivity.
  destruct (urllib_parse.hex_value a), (urllib_parse.hex_value b); reflexivity.
Qed.

Lemma unquote_to_bytes_nonempty (s : string) :
  Py.is_empty s = false ->
  Py.is_empty (urllib_parse.unquote_to_bytes s) = false.
Proof.
  intros Hs. unfold urllib_parse.unquote_to_bytes.
  destruct (Py.split "%" s) as [|first [|item items]]; try assumption.
  cbn [map Py.join fold_right].
  rewrite !is_empty_app, unquote_item_nonempty.
  cbn. apply andb_false_r.
Qed.

Lemma ascii_runs_head (c : ascii) (r : string) :
  exists a run rest,
    urllib_parse.ascii_runs (String c r) = (a, run) :: rest /\
    Py.is_empty run = false.
Proof.
  cbn [urllib_parse.ascii_runs].
  destruct (urllib_parse.ascii_runs r) as [|[a' run'] rest].
  - do 3 eexists. split; reflexivity.
  - destruct (Bool.eqb (Py.ord c <? 128) a'); do 3 eexists; split; reflexivity.
Qed.

Lemma unquote_nonempty (s : Py.str) :
  Py.is_empty s = false -> Py.is_empty (urllib_parse.unquote s) = false.
Proof.
  intros Hs. unfold urllib_parse.unquote.
  destruct (negb (Py.contains_char "%" s)); [assumption|].
  destruct s as [|c r]; [discriminate|].
  destruct (ascii_runs_head c r) as (a & run & rest & -> & Hrun).
  cbn [map Py.join fold_right]. rewrite is_empty_app.
  destruct a.
  - now rewrite utf8_decode_nonempty by now apply unquote_to_bytes_nonempty.
  - now rewrite Hrun.
Qed.

Lemma replace_char_nonempty a b (s : string) :
  Py.is_empty (Py.replace_char a b s) = Py.is_empty s.
Proof. destruct s; reflexivity. Qed.

(** ** The target URL and the parameters named [url] *)

Lemma dict_get_add d k v k0 :
  urllib_parse.dict_get (urllib_parse.dict_add d k v) k0 =
  if String.eqb k k0 then
    Some (match urllib_parse.dict_get d k0 with
          | Some vs => vs ++ [v]
          | None => [v]
          end)%list
  else urllib_parse.dict_get d k0.
Proof.
  induction d as [|[k' vs] d IH]; cbn.
  - reflexivity.
  - destruct (String.eqb k' k) eqn:Hk'.
    + apply String.eqb_eq in Hk'. subst k'. cbn.
      destruct (String.eqb k k0); reflexivity.
    + cbn. destruct (String.eqb k' k0) eqn:Hk0.
      * destruct (String.eqb k k0) eqn:Hkk0; [|reflexivity].
        apply String.eqb_eq in Hk0, Hkk0. subst.
        now rewrite String.eqb_refl in Hk'.
      * apply IH.
Qed.

Lemma fold_dict_add_values pairs :
  forall seen d,
    values_from seen d ->
    values_from (seen ++ pairs)
      (fold_left (fun d '(name, value) => urllib_parse.dict_add d name value)
                 pairs d).
Proof.
  induction pairs as [|[n v] pairs IH]; intros seen d Hd; cbn [fold_left].
  - now rewrite app_nil_r.
  - replace (seen ++ (n, v) :: pairs)%list with ((seen ++ [(n, v)]) ++ pairs)%list
      by now rewrite <- app_assoc.
    apply IH. intros k vs x Hget Hin.
    rewrite dict_get_add in Hget. apply in_or_app.
    destruct (String.eqb n k) eqn:Hn.
    + apply String.eqb_eq in Hn. subst k. injection Hget as <-.
      destruct (urllib_parse.dict_get d n) as [vs0|] eqn:Hd0.
      * apply in_app_or in Hin. destruct Hin as [Hin|[<-|[]]].
        -- left. exact (Hd _ _ _ Hd0 Hin).
        -- right. now left.
      * destruct Hin as [<-|[]]. right. now left.
    + left. exact (Hd _ _ _ Hget Hin).
Qed.

(** Every value [parse_qs] keeps under a name is the value of a pair of
    [parse_qsl] with that name. *)
Lemma parse_qs_values qs k vs v :
  urllib_parse.dict_get (urllib_parse.parse_qs qs) k = Some vs ->
  In v vs -> In (k, v) (urllib_parse.parse_qsl qs).
Proof.
  intros Hget Hin.
  refine (fold_dict_add_values (urllib_parse.parse_qsl qs) [] [] _ k vs v Hget Hin).
  intros ? ? ? H; discriminate H.
Qed.

(** A pair of [parse_qsl]: a field [name=value] of the query whose value is
    not blank. *)
Lemma parse_qsl_In qs k v :
  In (k, v) (urllib_parse.parse_qsl qs) <->
  exists field n raw,
    In field (Py.split "&" qs) /\ Py.split1 "=" field = [n; raw] /\
    Py.is_empty raw = false /\
    k = urllib_parse.unquote (Py.replace_char "+" " " n) /\
    v = urllib_parse.unquote (Py.replace_char "+" " " raw).
Proof.
  unfold urllib_parse.parse_qsl. split.
  - destruct (Py.is_empty qs); [intros []|]. rewrite in_flat_map.
    intros (field & Hfield & Hin). exists field.
    unfold urllib_parse.parse_field in Hin.
    destruct (Py.is_empty field); [destruct Hin|].
    destruct (Py.split1 "=" field) as [|n [|raw [|]]]; try destruct Hin.
    destruct (Py.is_empty raw) eqn:Hraw; cbn in Hin; [destruct Hin|].
    destruct Hin as [[= <- <-]|[]]. exists n, raw. auto.
  - intros (field & n & raw & Hfield & Hsplit & Hraw & -> & ->).
    destruct (Py.is_empty qs) eqn:Hqs.
    + apply is_empty_true in Hqs. subst qs. cbn in Hfield.
      destruct Hfield as [<-|[]]. discriminate Hsplit.
    + rewrite in_flat_map. exists field. split; [assumption|].
      unfold urllib_parse.parse_field.
      destruct (Py.is_empty field) eqn:Hf.
      * apply is_empty_true in Hf. subst field. discriminate Hsplit.
      * rewrite Hsplit, Hraw. now left.
Qed.

(** A parameter named [url]: a field [name=value] of the query whose name
    decodes to [url]. *)
Lemma url_parameters_In pth a query v :
  Py.split1 "?" pth = [a; query] ->
  In v (url_parameters pth) <->
  exists field n raw,
    In field (Py.split "&" query) /\ Py.split1 "=" field = [n; raw] /\
    urllib_parse.unquote (Py.replace_char "+" " " n) = "url" /\
    v = urllib_parse.unquote (Py.replace_char "+" " " raw).
Proof.
  intros Hs. unfold url_parameters. rewrite Hs, in_flat_map. split.
  - intros (field & Hfield & Hin). exists field.
    destruct (Py.split1 "=" field) as [|n [|raw [|]]]; try destruct Hin.
    destruct (String.eqb _ "url") eqn:Hn; [|destruct Hin].
    apply String.eqb_eq in Hn. destruct Hin as [<-|[]]. exists n, raw. auto.
  - intros (field & n & raw & Hfield & Hsplit & Hn & ->).
    exists field. split; [assumption|]. rewrite Hsplit, Hn. now left.
Qed.

Lemma unquote_empty : urllib_parse.unquote "" = "".
Proof. reflexivity. Qed.

(** The name of every pair is a key of the dictionary. *)
Lemma dict_get_present pairs :
  forall d k v,
    In (k, v) pairs \/ urllib_parse.dict_get d k <> None ->
    urllib_parse.dict_get
      (fold_left (fun d '(name, value) => urllib_parse.dict_add d name value)
                 pairs d) k <> None.
Proof.
  induction pairs as [|[n x] pairs IH]; intros d k v H; cbn [fold_left].
  - destruct H as [[]|H]; exact H.
  - apply (IH _ k v). rewrite dict_get_add.
    destruct H as [[[= -> ->]|H]|H].
    + right. now rewrite String.eqb_refl.
    + now left.
    + right. destruct (String.eqb n k); [discriminate|exact H].
Qed.

(** The target URL is empty exactly when every parameter named [url]
    decodes to the empty string (or there is none). *)
Lemma target_url_empty (pth : Py.str) :
  Py.is_empty (target_url pth) = forallb Py.is_empty (url_parameters pth).
Proof.
  destruct (forallb Py.is_empty (url_parameters pth)) eqn:Hall.
  - rewrite forallb_forall in Hall. unfold target_url.
    destruct (Py.split1 "?" pth) as [|a [|query [|]]] eqn:Hs; try reflexivity.
    destruct (urllib_parse.dict_get _ "url") as [[|v vs]|] eqn:Hget;
      try reflexivity.
    apply Hall. rewrite (url_parameters_In _ _ _ _ Hs).
    assert (Hin : In ("url", v) (urllib_parse.parse_qsl query))
      by (eapply parse_qs_values; [exact Hget|now left]).
    rewrite parse_qsl_In in Hin.
    destruct Hin as (field & n & raw & Hf & Hsp & _ & Hn & Hv).
    exists field, n, raw. auto.
  - assert (Hex : exists v, In v (url_parameters pth) /\ Py.is_empty v = false).
    { clear -Hall. induction (url_parameters pth) as [|x l IH]; [discriminate|].
      cbn in Hall. destruct (Py.is_empty x) eqn:Hx.
      - destruct (IH Hall) as (v & Hin & Hv). exists v. split; [now right|easy].
      - exists x. split; [now left|easy]. }
    destruct Hex as (v & Hin & Hv). unfold target_url.
    destruct (Py.split1 "?" pth) as [|a [|query [|]]] eqn:Hs;
      try (unfold url_parameters in Hin; rewrite Hs in Hin; destruct Hin).
    rewrite (url_parameters_In _ _ _ _ Hs) in Hin.
    destruct Hin as (field & n & raw & Hf & Hsp & Hn & ->).
    assert (Hraw : Py.is_empty raw = false).
    { destruct raw; [discriminate Hv|reflexivity]. }
    assert (Hpair : In ("url", urllib_parse.unquote (Py.replace_char "+" " " raw))
                       (urllib_parse.parse_qsl query)).
    { rewrite parse_qsl_In. exists field, n, raw. auto. }
    destruct (urllib_parse.dict_get (urllib_parse.parse_qs query) "url")
      as [[|v0 vs]|] eqn:Hget.
    + exfalso. exact (parse_qs_values_nonempty _ _ _ Hget eq_refl).
    + assert (Hin0 : In ("url", v0) (urllib_parse.parse_qsl query))
        by (eapply parse_qs_values; [exact Hget|now left]).
      rewrite parse_qsl_In in Hin0.
      destruct Hin0 as (f0 & n0 & raw0 & _ & _ & Hraw0 & _ & ->).
      apply unquote_nonempty. now rewrite replace_char_nonempty.
    + exfalso. revert Hget. unfold urllib_parse.parse_qs.
      eapply dict_get_present. left. exact Hpair.
Qed.

(** [parse_qs] drops blank values: after a blank [url] parameter, a later
    one that is not blank is the target. *)
Lemma blank_parameter_skipped :
  url_parameters "/proxy?url=&url=http://a/x.xml" = [""; "http://a/x.xml"] /\
  target_url "/proxy?url=&url=http://a/x.xml" = "http://a/x.xml".
Proof. split; reflexivity. Qed.

(** ** Substrings *)

Lemma prefix_app (a b : string) : String.prefix a (a ++ b) = true.
Proof.
  induction a as [|c a IH]; cbn; [now destruct b|].
  destruct (ascii_dec c c); [exact IH|contradiction].
Qed.

Lemma contains_here (needle post : string) :
  Py.contains needle (needle ++ post) = true.
Proof.
  destruct (needle ++ post) eqn:E; cbn [Py.contains];
    rewrite <- E, prefix_app; reflexivity.
Qed.

Lemma contains_later (needle pre s : string) :
  Py.contains needle s = true -> Py.contains needle (pre ++ s) = true.
Proof.
  intros H. induction pre as [|c pre IH]; [exact H|].
  cbn [append Py.contains]. rewrite IH. apply orb_true_r.
Qed.



(** The page of an error holds the escaped message. *)
Lemma error_page_contains code message :
  Py.contains (Py.html_escape message) (error_page code message) = true.
Proof.
  unfold error_page, BaseHTTPRequestHandler.error_message_format.
  repeat (first [ apply contains_here
                | match goal with
                  | |- Py.contains _ (?pre ++ _) = true => apply contains_later
                  end ]).
Qed.

(** ** Responses of the proxy route *)

Lemma sent_after_error W p code message :
  sent (Ok tt (after_error W code message (fetching p)) : result unit)
  = Some (error_response W p code message).
Proof. unfold sent, final. now rewrite response_after_error. Qed.

Lemma sent_relayed W p content :
  sent (Ok tt (set_wfile (relayed W content) (fetching p)) : result unit)
  = Some {| status := 200; reason := "OK";
            fields := relayed_fields W; body := content |}.
Proof.
  unfold sent, final, relayed, response_of. cbn [wfile set_wfile].
  rewrite last_last, header_fields_map. cbn [header_fields payloads].
  now rewrite app_nil_r, append_empty_r.
Qed.



Lemma GET_failure_sent W p e code message :
  Py.startswith p "/proxy?url=" = true ->
  Py.is_empty (target_url p) = false ->
  urlopen_read W (target_url p) = Failed e ->
  clause_of e = Some (code, message) ->
  Py.latin1_encodable message = true ->
  GET W p = Ok tt (after_error W code message (fetching p)).
Proof.
  intros Hp Ht Hf Hc Henc.
  rewrite (GET_failed _ _ _ Hp Ht Hf), Hc.
  now apply send_error_sends.
Qed.

Lemma GET_failure_unsent W p e code message :
  Py.startswith p "/proxy?url=" = true ->
  Py.is_empty (target_url p) = false ->
  urlopen_read W (target_url p) = Failed e ->
  clause_of e = Some (code, message) ->
  Py.latin1_encodable message = false ->
  GET W p = Raise (Raised UnicodeEncodeError
                     "'latin-1' codec can't encode character") (fetching p).
Proof.
  intros Hp Ht Hf Hc Henc.
  rewrite (GET_failed _ _ _ Hp Ht Hf), Hc.
  now apply send_error_raises.
Qed.

(** The response that relays a fetched body. *)
Lemma relayed_response W p remote_status content :
  Py.startswith p "/proxy?url=" = true ->
  Py.is_empty (target_url p) = false ->
  urlopen_read W (target_url p) = Fetched remote_status content ->
  sent (GET W p)
  = Some {| status := 200; reason := "OK";
            fields := relayed_fields W; body := content |}
  /\ escaped (GET W p) = None.
Proof.
  intros Hp Ht Hf. rewrite (GET_fetched _ _ _ _ Hp Ht Hf), sent_relayed.
  now split.
Qed.

(** *** C1 *)

(** C1. A GET on the proxy route with a target URL that is not empty, whose
    fetch returns a body, is answered with status 200 whatever the status of
    the remote response, with [Content-Type: text/xml; charset=utf-8], the
    three CORS headers, and the remote body unchanged. *)
Theorem proxy_success_relays W p remote_status content :
  Py.startswith p "/proxy?url=" = true ->
  Py.is_empty (target_url p) = false ->
  urlopen_read W (target_url p) = Fetched remote_status content ->
  exists r,
    sent (GET W p) = Some r /\ escaped (GET W p) = None /\
    status r = 200 /\
    has_header r "Content-Type" "text/xml; charset=utf-8" /\
    has_cors r /\
    body r = content.
Proof.
  intros Hp Ht Hf.
  destruct (relayed_response W p remote_status content Hp Ht Hf) as [-> ->].
  eexists. split; [reflexivity|].
  unfold has_cors, has_header, relayed_fields. cbn [fields status body In].
  intuition.
Qed.

Lemma proxy_success_relays_witness :
  exists r,
    sent (GET sample_world "/proxy?url=http://a/empty") = Some r /\
    escaped (GET sample_world "/proxy?url=http://a/empty") = None /\
    status r = 200 /\
    has_header r "Content-Type" "text/xml; charset=utf-8" /\
    has_cors r /\
    body r = "".
Proof.
  apply (proxy_success_relays sample_world "/proxy?url=http://a/empty" 204 "");
    reflexivity.
Defined.

(** *** C2 *)

(** C2, where the claim as worded fails: the first parameter named [url]
    of [/proxy?url=&url=http://a/x.xml] is empty, yet [parse_qs] drops the
    blank value, the second parameter is the target, [urlopen] is called
    and the answer is 200. *)
Lemma blank_first_parameter_is_fetched :
  Py.startswith "/proxy?url=&url=http://a/x.xml" "/proxy?url=" = true /\
  hd "" (url_parameters "/proxy?url=&url=http://a/x.xml") = "" /\
  exists r,
    sent (GET sample_world "/proxy?url=&url=http://a/x.xml") = Some r /\
    status r = 200 /\
    fetches (final (GET sample_world "/proxy?url=&url=http://a/x.xml"))
    = [proxy_request "http://a/x.xml"].
Proof.
  do 2 (split; [reflexivity|]). eexists. repeat split.
Qed.

(** C2, amended. A GET on the proxy route whose parameters named [url] all
    decode to the empty string (or are absent) is answered with status 400
    and the message "Missing url parameter", and [urlopen] is not called. *)
Theorem missing_url_parameter_400 W p :
  Py.startswith p "/proxy?url=" = true ->
  forallb Py.is_empty (url_parameters p) = true ->
  exists r,
    sent (GET W p) = Some r /\ escaped (GET W p) = None /\
    status r = 400 /\
    reason r = "Missing url parameter" /\
    Py.contains "Missing url parameter" (body r) = true /\
    fetches (final (GET W p)) = [].
Proof.
  intros Hp Hall. rewrite <- target_url_empty in Hall.
  rewrite (GET_missing_parameter _ _ Hp Hall).
  unfold sent, final. rewrite response_after_error by reflexivity.
  eexists. split; [reflexivity|].
  cbn [error_response status reason body escaped fetches after_error
       set_wfile new_handler].
  do 3 (split; [reflexivity|]).
  split; [exact (error_page_contains 400 "Missing url parameter")|reflexivity].
Qed.

Lemma missing_url_parameter_400_witness :
  exists r,
    sent (GET sample_world "/proxy?url=") = Some r /\
    escaped (GET sample_world "/proxy?url=") = None /\
    status r = 400 /\
    reason r = "Missing url parameter" /\
    Py.contains "Missing url parameter" (body r) = true /\
    fetches (final (GET sample_world "/proxy?url=")) = [].
Proof.
  apply (missing_url_parameter_400 sample_world "/proxy?url="); reflexivity.
Defined.

(** *** C3 *)




(** *** C4 *)



(** C4, at an input where the code does not do what the claim says.  The
    target U+4F60 has no scheme, [Request] raises [ValueError], the third
    [except] clause calls [send_error(500, ...)], and the message (it quotes
    the target) cannot be encoded as Latin-1 for the status line: nothing is
    sent. *)
Theorem unencodable_failure_sends_no_500 :
  let p := "/proxy?url=%E4%BD%A0" in
  let e := Raised ValueError ("unknown url type: '" ++ ni ++ "'") in
  target_url p = ni /\
  urlopen_read sample_world (target_url p) = Rejected e /\
  isinstance e URLError_class = false /\
  isinstance e (Builtin Exception) = true /\
  clause_of e = Some (500, "Server error: " ++ exn_str e) /\
  sent (GET sample_world p) = None /\
  wfile (final (GET sample_world p)) = [].
Proof. repeat split. Qed.

(** *** C7 *)




(** *** C9 *)

(** When the fetch raises an instance of [Exception] whose string form can
    go into a status line, the handler catches it and answers; nothing
    escapes. *)
Lemma encodable_failure_is_contained W p e :
  Py.startswith p "/proxy?url=" = true ->
  Py.is_empty (target_url p) = false ->
  urlopen_read W (target_url p) = Failed e ->
  isinstance e (Builtin Exception) = true ->
  Py.latin1_encodable (exn_str e) = true ->
  escaped (GET W p) = None /\ sent (GET W p) <> None.
Proof.
  intros Hp Ht Hf Hexc Henc.
  assert (Hc : exists code message,
             clause_of e = Some (code, message) /\
             Py.latin1_encodable message = true).
  { destruct e as [code msg|reason|b text]; do 2 eexists.
    - split; [reflexivity|exact Henc].
    - split; [reflexivity|]. now rewrite latin1_encodable_app, Henc.
    - unfold clause_of. rewrite Hexc. split; [reflexivity|].
      now rewrite latin1_encodable_app, Henc. }
  destruct Hc as (code & message & Hc & Hm).
  rewrite (GET_failure_sent _ _ _ code message Hp Ht Hf Hc Hm), sent_after_error.
  split; [reflexivity|discriminate].
Qed.

(** An exception outside [Exception], such as [KeyboardInterrupt], passes
    all three [except] clauses. *)
Lemma uncaught_class_escapes W p b text :
  Py.startswith p "/proxy?url=" = true ->
  Py.is_empty (target_url p) = false ->
  urlopen_read W (target_url p) = Failed (Raised b text) ->
  isinstance (Raised b text) (Builtin Exception) = false ->
  escaped (GET W p) = Some (Raised b text).
Proof.
  intros Hp Ht Hf Hexc.
  rewrite (GET_failed _ _ _ Hp Ht Hf). unfold clause_of. now rewrite Hexc.
Qed.

(** C9, at an input where the code does not do what the claim says.  The
    [ValueError] for the target U+4F60 is caught by [except Exception]; the
    clause calls [send_error], which raises [UnicodeEncodeError] when it
    encodes the status line; that exception leaves [handle_proxy_request]
    and [do_GET], and no response was written. *)
Theorem encoding_error_escapes_handler :
  escaped (CORSProxyHandler.handle_proxy_request sample_world
             (new_handler "GET" "/proxy?url=%E4%BD%A0"))
  = Some (Raised UnicodeEncodeError "'latin-1' codec can't encode character")
  /\
  escaped (GET sample_world "/proxy?url=%E4%BD%A0")
  = Some (Raised UnicodeEncodeError "'latin-1' codec can't encode character")
  /\
  sent (GET sample_world "/proxy?url=%E4%BD%A0") = None.
Proof. repeat split. Qed.

(** ** Preflight and static responses *)

(** The response to OPTIONS: the three CORS headers of [do_OPTIONS], and
    once more what [end_headers] injects for the path. *)
Lemma OPTIONS_response W p :
  sent (OPTIONS W p)
  = Some {| status := 200; reason := "OK";
            fields := [ ("Server", version_string W);
                        ("Date", date_time_string W);
                        ("Access-Control-Allow-Origin", "*");
                        ("Access-Control-Allow-Methods", "GET, OPTIONS");
                        ("Access-Control-Allow-Headers", "Content-Type") ]
                      ++ injected p;
            body := "" |}
  /\ escaped (OPTIONS W p) = None.
Proof.
  unfold injected. unfold_methods. unfold Py.startswith. cbv -[String.prefix].
  destruct (prefix "/proxy" p); split; reflexivity.
Qed.

(** *** C5 *)

(** C5. Every OPTIONS request, whatever its path, is answered with status
    200, an empty body and the three CORS headers. *)
Theorem preflight_response W p :
  exists r,
    sent (OPTIONS W p) = Some r /\ escaped (OPTIONS W p) = None /\
    status r = 200 /\ body r = "" /\ has_cors r.
Proof.
  destruct (OPTIONS_response W p) as [-> ->].
  eexists. split; [reflexivity|].
  unfold has_cors, has_header. cbn [fields status body In app].
  intuition.
Qed.

(** What the static server sends for a path that is not on the proxy
    route: by what it finds, the status and the content; its CORS headers
    are those [end_headers] injects for the path, no more.  When
    [send_head] raises, the exception leaves [do_GET] and nothing was
    written. *)
Lemma static_response W p :
  Py.startswith p "/proxy?url=" = false ->
  match lookup W p with
  | Unservable e => GET W p = Raise e (new_handler "GET" p)
  | entry =>
      exists r,
        sent (GET W p) = Some r /\ escaped (GET W p) = None /\
        cors_fields r = injected p /\
        match entry with
        | RegularFile _ content _ => status r = 200 /\ body r = content
        | NotModified => status r = 304 /\ body r = ""
        | Missing | DirectoryUnreadable => status r = 404
        | DirectoryNoSlash _ => status r = 301 /\ body r = ""
        | DirectoryListing _ encoded => status r = 200 /\ body r = encoded
        | Unservable _ => True
        end
  end.
Proof.
  intros Hp. rewrite (GET_static _ _ Hp). unfold injected.
  unfold_methods. unfold Py.startswith.
  destruct (lookup W p) as [ctype content lm| | |new_url|enc encoded| |e];
    [| | | | | |reflexivity];
    cbv -[String.prefix Py.str_of_int Py.len Py.html_escape String.append
          BaseHTTPRequestHandler.error_message_format];
    destruct (prefix "/proxy" p);
    cbv -[String.prefix Py.str_of_int Py.len Py.html_escape String.append
          BaseHTTPRequestHandler.error_message_format];
    eexists; (split; [reflexivity|]); (split; [reflexivity|]);
    (split; [reflexivity|]); cbn [status body];
    rewrite ?append_empty_r; auto.
Qed.

(** A path with a NUL byte: [open] raises [ValueError], which leaves
    [do_GET]; nothing was written. *)
Lemma null_byte_path_raises :
  escaped (GET sample_world "/%00")
  = Some (Raised ValueError "embedded null byte") /\
  wfile (final (GET sample_world "/%00")) = [].
Proof. split; reflexivity. Qed.

(** A response whose CORS headers are those injected for a path that does
    not start with [/proxy] carries [Access-Control-Allow-Origin: *]. *)
Lemma allow_origin_injected p r :
  Py.startswith p "/proxy" = false ->
  cors_fields r = injected p ->
  has_header r "Access-Control-Allow-Origin" "*".
Proof.
  intros Hp Hc. unfold injected in Hc. rewrite Hp in Hc.
  unfold cors_fields in Hc. unfold has_header.
  assert (Hin : In ("Access-Control-Allow-Origin", "*")
                   (filter (fun kv => existsb (String.eqb (fst kv)) cors_names)
                           (fields r)))
    by (rewrite Hc; now left).
  now apply filter_In in Hin.
Qed.

(** A path that does not start with [/proxy] is not on the proxy route. *)
Lemma off_proxy_off_route p :
  Py.startswith p "/proxy" = false -> Py.startswith p "/proxy?url=" = false.
Proof.
  intros Hp. destruct (Py.startswith p "/proxy?url=") eqn:E; [|reflexivity].
  destruct (startswith_app _ _ E) as [rest ->]. discriminate Hp.
Qed.

(** *** C6 *)

(** C6, where the claim as worded fails: the response to a GET for a file
    carries [Access-Control-Allow-Origin] alone, not the other two CORS
    headers. *)
Lemma static_response_lacks_two_cors_headers :
  exists r,
    sent (GET sample_world "/index.html") = Some r /\
    status r = 200 /\
    cors_fields r = [("Access-Control-Allow-Origin", "*")] /\
    ~ has_cors r.
Proof.
  eexists. split; [reflexivity|]. do 2 (split; [reflexivity|]).
  unfold has_cors, has_header. cbn. intuition discriminate.
Qed.

(** C6, amended. The response to an OPTIONS request and the response that
    relays a fetched body carry all three CORS headers; every response sent
    to a GET whose path does not start with [/proxy] carries
    [Access-Control-Allow-Origin: *]: the static server answers with it,
    unless [send_head] raises, and then nothing is sent. *)
Theorem cors_headers_where_sent W p :
  (exists r, sent (OPTIONS W p) = Some r /\ has_cors r) /\
  (forall remote_status content,
      Py.startswith p "/proxy?url=" = true ->
      Py.is_empty (target_url p) = false ->
      urlopen_read W (target_url p) = Fetched remote_status content ->
      exists r, sent (GET W p) = Some r /\ has_cors r) /\
  (Py.startswith p "/proxy" = false ->
   match lookup W p with
   | Unservable _ => sent (GET W p) = None
   | _ => exists r, sent (GET W p) = Some r /\
                    has_header r "Access-Control-Allow-Origin" "*"
   end).
Proof.
  split; [|split].
  - destruct (OPTIONS_response W p) as [-> _].
    eexists. split; [reflexivity|].
    unfold has_cors, has_header. cbn [fields In app]. intuition.
  - intros st content Hp Ht Hf.
    destruct (relayed_response W p st content Hp Ht Hf) as [-> _].
    eexists. split; [reflexivity|].
    unfold has_cors, has_header, relayed_fields. cbn [fields In]. intuition.
  - intros Hp.
    pose proof (static_response W p (off_proxy_off_route p Hp)) as H.
    destruct (lookup W p); try (destruct H as (r & Hr & _ & Hc & _);
      exists r; split; [exact Hr|exact (allow_origin_injected p r Hp Hc)]).
    now rewrite H.
Qed.

Lemma cors_headers_where_sent_witness :
  exists r, sent (GET sample_world "/index.html") = Some r /\
            has_header r "Access-Control-Allow-Origin" "*".
Proof.
  apply (cors_headers_where_sent sample_world "/index.html"). reflexivity.
Defined.

(** *** C8 *)

(** A GET for a path that does not start with [/proxy]: a file is served
    with status 200, its bytes and [Access-Control-Allow-Origin: *]; a path
    that matches nothing is answered 404. *)
Lemma static_file_served W p :
  Py.startswith p "/proxy" = false ->
  match lookup W p with
  | RegularFile _ content _ =>
      exists r,
        sent (GET W p) = Some r /\
        has_header r "Access-Control-Allow-Origin" "*" /\
        status r = 200 /\ body r = content
  | Missing =>
      exists r,
        sent (GET W p) = Some r /\
        has_header r "Access-Control-Allow-Origin" "*" /\
        status r = 404
  | _ => True
  end.
Proof.
  intros Hp.
  pose proof (static_response W p (off_proxy_off_route p Hp)) as H.
  destruct (lookup W p); try exact I;
    destruct H as (r & Hr & _ & Hc & Hs); exists r;
    (split; [exact Hr|]);
    (split; [exact (allow_origin_injected p r Hp Hc)|exact Hs]).
Qed.

(** C8, at an input where the code does not do what the claim says.
    [/proxy.html] is not on the proxy route ([do_GET] tests the prefix
    [/proxy?url=]), the file exists and is served with status 200 and its
    bytes; [end_headers] tests the shorter prefix [/proxy] and adds no
    [Access-Control-Allow-Origin]. *)
Theorem proxy_html_served_without_allow_origin :
  Py.startswith "/proxy.html" "/proxy?url=" = false /\
  lookup sample_world "/proxy.html" = RegularFile "text/html" "<p/>" epoch /\
  exists r,
    sent (GET sample_world "/proxy.html") = Some r /\
    status r = 200 /\ body r = "<p/>" /\
    ~ has_header r "Access-Control-Allow-Origin" "*".
Proof.
  do 2 (split; [reflexivity|]).
  eexists. split; [reflexivity|]. do 2 (split; [reflexivity|]).
  unfold has_header. cbn. intuition discriminate.
Qed.

(** *** C10 *)

(** C10. A GET whose path starts with [/proxy] but not with [/proxy?url=]
    is handled by the static file server, and its response carries no CORS
    header at all: [end_headers] skips the injection for the prefix
    [/proxy].  The static server answers unless [send_head] raises, and
    then nothing is sent. *)
Theorem proxy_prefixed_static_has_no_cors W p :
  Py.startswith p "/proxy" = true ->
  Py.startswith p "/proxy?url=" = false ->
  GET W p = SimpleHTTPRequestHandler.do_GET W CORSProxyHandler.end_headers
              (new_handler "GET" p) /\
  injected p = [] /\
  match lookup W p with
  | Unservable _ => sent (GET W p) = None
  | _ =>
      exists r,
        sent (GET W p) = Some r /\ escaped (GET W p) = None /\
        cors_fields r = []
  end.
Proof.
  intros Hprefix Hroute. split; [exact (GET_static _ _ Hroute)|].
  assert (Hinj : injected p = []) by (unfold injected; now rewrite Hprefix).
  split; [exact Hinj|].
  pose proof (static_response W p Hroute) as H. rewrite Hinj in H.
  destruct (lookup W p); try (destruct H as (r & Hr & He & Hc & _);
    exists r; auto).
  now rewrite H.
Qed.

Lemma proxy_prefixed_static_has_no_cors_witness :
  GET sample_world "/proxy?other=1&url=x"
  = SimpleHTTPRequestHandler.do_GET sample_world CORSProxyHandler.end_headers
      (new_handler "GET" "/proxy?other=1&url=x") /\
  injected "/proxy?other=1&url=x" = [] /\
  exists r,
    sent (GET sample_world "/proxy?other=1&url=x") = Some r /\
    escaped (GET sample_world "/proxy?other=1&url=x") = None /\
    cors_fields r = [].
Proof.
  apply (proxy_prefixed_static_has_no_cors sample_world "/proxy?other=1&url=x");
    reflexivity.
Defined.

(** * Further properties of the code *)

(** ** The target URL *)

(** The values the dictionary holds under a name after more pairs went in:
    those it held, then the values of the new pairs with that name. *)
Lemma dict_get_fold pairs :
  forall d k,
    urllib_parse.dict_get
      (fold_left (fun d '(name, value) => urllib_parse.dict_add d name value)
                 pairs d) k
    = match urllib_parse.dict_get d k, values_of k pairs with
      | Some vs, more => Some (vs ++ more)%list
      | None, [] => None
      | None, more => Some more
      end.
Proof.
  induction pairs as [|[n v] pairs IH]; intros d k; cbn [fold_left].
  - unfold values_of. cbn. destruct (urllib_parse.dict_get d k); [|reflexivity].
    now rewrite app_nil_r.
  - rewrite IH, dict_get_add. unfold values_of. cbn [filter fst].
    destruct (String.eqb n k); cbn [map snd].
    + destruct (urllib_parse.dict_get d k) as [vs|]; [|reflexivity].
      now rewrite <- app_assoc.
    + reflexivity.
Qed.

Lemma values_of_app k a b :
  values_of k (a ++ b) = (values_of k a ++ values_of k b)%list.
Proof. unfold values_of. now rewrite filter_app, map_app. Qed.

Lemma values_of_flat_map {A} k (f : A -> list (Py.str * Py.str)) l :
  values_of k (flat_map f l) = flat_map (fun x => values_of k (f x)) l.
Proof.
  induction l as [|x l IH]; [reflexivity|].
  cbn [flat_map]. now rewrite values_of_app, IH.
Qed.

Lemma nonblank_flat_map {A} (f : A -> list Py.str) l :
  nonblank (flat_map f l) = flat_map (fun x => nonblank (f x)) l.
Proof.
  unfold nonblank. induction l as [|x l IH]; [reflexivity|].
  cbn [flat_map]. rewrite filter_app. f_equal. exact IH.
Qed.

(** Field by field, [parse_qsl] keeps under [url] the parameters named
    [url] that are not blank. *)
Lemma parse_field_url field :
  values_of "url" (urllib_parse.parse_field field)
  = nonblank
      match Py.split1 "=" field with
      | [n; v] =>
          if String.eqb (urllib_parse.unquote (Py.replace_char "+" " " n)) "url"
          then [urllib_parse.unquote (Py.replace_char "+" " " v)]
          else []
      | _ => []
      end.
Proof.
  unfold urllib_parse.parse_field.
  destruct (Py.is_empty field) eqn:Hf.
  - apply is_empty_true in Hf. subst field. reflexivity.
  - destruct (Py.split1 "=" field) as [|n [|raw [|]]]; try reflexivity.
    unfold values_of, nonblank.
    destruct (Py.is_empty raw) eqn:Hraw; cbn [negb].
    + apply is_empty_true in Hraw. subst raw. cbn.
      now destruct (String.eqb _ "url").
    + cbn [filter fst]. destruct (String.eqb _ "url"); [|reflexivity].
      cbn [map snd filter].
      rewrite unquote_nonempty by now rewrite replace_char_nonempty.
      reflexivity.
Qed.

Lemma target_url_nonblank (pth : Py.str) :
  target_url pth = hd "" (nonblank (url_parameters pth)).
Proof.
  unfold target_url, url_parameters.
  destruct (Py.split1 "?" pth) as [|a [|query [|]]]; try reflexivity.
  unfold urllib_parse.parse_qs. rewrite dict_get_fold. cbn [urllib_parse.dict_get].
  assert (H : values_of "url" (urllib_parse.parse_qsl query)
              = nonblank
                  (flat_map
                     (fun name_value =>
                        match Py.split1 "=" name_value with
                        | [n; v] =>
                            if String.eqb
                                 (urllib_parse.unquote (Py.replace_char "+" " " n))
                                 "url"
                            then [urllib_parse.unquote (Py.replace_char "+" " " v)]
                            else []
                        | _ => []
                        end) (Py.split "&" query))).
  { rewrite nonblank_flat_map. unfold urllib_parse.parse_qsl.
    destruct (Py.is_empty query) eqn:Hq.
    - apply is_empty_true in Hq. subst query. reflexivity.
    - rewrite values_of_flat_map. apply flat_map_ext. intros f.
      apply parse_field_url. }
  rewrite <- H.
  now destruct (values_of "url" (urllib_parse.parse_qsl query)).
Qed.

(** X2. The target URL is the first parameter named [url] whose value is
    not blank, the empty string if there is none: [parse_qs] drops blank
    values and keeps the others in the order of the query string. *)
Theorem target_is_first_nonblank_parameter (pth : Py.str) :
  target_url pth = hd "" (nonblank (url_parameters pth)).
Proof. exact (target_url_nonblank pth). Qed.

Lemma split_no_separator sep (a : string) :
  Py.contains_char sep a = false -> Py.split sep a = [a].
Proof.
  induction a as [|c a IH]; [reflexivity|].
  cbn [Py.contains_char Py.split]. intros H.
  apply orb_false_elim in H. destruct H as [Hc Ha].
  now rewrite Hc, (IH Ha).
Qed.

Lemma split_at_separator sep (a b : string) :
  Py.contains_char sep a = false ->
  Py.split sep (a ++ String sep b) = a :: Py.split sep b.
Proof.
  induction a as [|c a IH]; cbn [append Py.contains_char Py.split]; intros H.
  - now rewrite Ascii.eqb_refl.
  - apply orb_false_elim in H. destruct H as [Hc Ha].
    now rewrite Hc, (IH Ha).
Qed.

Lemma replace_char_absent a b (s : string) :
  Py.contains_char a s = false -> Py.replace_char a b s = s.
Proof.
  induction s as [|c s IH]; [reflexivity|].
  cbn [Py.contains_char Py.replace_char]. intros H.
  apply orb_false_elim in H. destruct H as [Hc Hs].
  now rewrite Hc, (IH Hs).
Qed.

(** The parameters named [url] of a proxy-route path whose first field
    runs up to the end or up to an ampersand. *)
Lemma url_parameters_first_field a tail :
  Py.contains_char "&" a = false ->
  Py.is_empty tail || Py.startswith tail "&" = true ->
  exists others,
    url_parameters ("/proxy?url=" ++ a ++ tail) = unquote_plus a :: others.
Proof.
  intros Ha Htail. unfold url_parameters.
  change (Py.split1 "?" ("/proxy?url=" ++ a ++ tail))
    with ["/proxy"; "url=" ++ a ++ tail].
  destruct tail as [|c b].
  - rewrite append_empty_r, split_no_separator by exact Ha.
    eexists. reflexivity.
  - cbn [Py.is_empty orb] in Htail.
    destruct (startswith_app _ _ Htail) as [rest Hrest].
    cbn in Hrest. injection Hrest as -> ->.
    change ("url=" ++ a ++ String "&" rest) with (("url=" ++ a) ++ String "&" rest).
    rewrite split_at_separator by exact Ha.
    eexists. reflexivity.
Qed.

(** X3. On the proxy route, when the text between [/proxy?url=] and the
    first ampersand (or the end of the path) is not empty, the target is
    that text with [+] read as a space and percent escapes decoded, and
    what follows the ampersand is not part of it.  A text without [%] and
    [+] is taken as it stands. *)
Theorem target_of_first_field a tail :
  Py.contains_char "&" a = false ->
  Py.is_empty a = false ->
  Py.is_empty tail || Py.startswith tail "&" = true ->
  target_url ("/proxy?url=" ++ a ++ tail) = unquote_plus a /\
  (Py.contains_char "%" a = false -> Py.contains_char "+" a = false ->
   target_url ("/proxy?url=" ++ a ++ tail) = a).
Proof.
  intros Ha Hne Htail.
  assert (H : target_url ("/proxy?url=" ++ a ++ tail) = unquote_plus a).
  { rewrite target_url_nonblank.
    destruct (url_parameters_first_field a tail Ha Htail) as [others ->].
    unfold nonblank, unquote_plus. cbn [filter].
    rewrite unquote_nonempty by now rewrite replace_char_nonempty.
    reflexivity. }
  split; [exact H|]. intros Hp Hplus. rewrite H.
  unfold unquote_plus, urllib_parse.unquote.
  rewrite (replace_char_absent _ _ _ Hplus), Hp. reflexivity.
Qed.

Lemma target_of_first_field_witness :
  target_url ("/proxy?url=" ++ "http://a/?x=1" ++ "&y=2")
  = unquote_plus "http://a/?x=1" /\
  (Py.contains_char "%" "http://a/?x=1" = false ->
   Py.contains_char "+" "http://a/?x=1" = false ->
   target_url ("/proxy?url=" ++ "http://a/?x=1" ++ "&y=2") = "http://a/?x=1").
Proof.
  apply (target_of_first_field "http://a/?x=1" "&y=2"); reflexivity.
Defined.

(** ** What a GET leaves behind *)

(** Every outcome of a GET on the proxy route. *)
Lemma GET_proxy_outcome W p :
  Py.startswith p "/proxy?url=" = true ->
  GET W p =
  if Py.is_empty (target_url p) then
    Ok tt (after_error W 400 "Missing url parameter" (new_handler "GET" p))
  else
    let answer e h :=
      match clause_of e with
      | Some (code, message) =>
          if Py.latin1_encodable message
          then Ok tt (after_error W code message h)
          else Raise (Raised UnicodeEncodeError
                        "'latin-1' codec can't encode character") h
      | None => Raise e h
      end in
    match urlopen_read W (target_url p) with
    | Rejected e => answer e (new_handler "GET" p)
    | Fetched _ content => Ok tt (set_wfile (relayed W content) (fetching p))
    | Failed e => answer e (fetching p)
    end.
Proof.
  intros Hp. destruct (Py.is_empty (target_url p)) eqn:Ht.
  - exact (GET_missing_parameter W p Hp Ht).
  - cbv zeta.
    destruct (urlopen_read W (target_url p)) as [e|st content|e] eqn:Hf.
    + rewrite (GET_rejected W p e Hp Ht Hf).
      destruct (clause_of e) as [[code message]|]; [|reflexivity].
      destruct (Py.latin1_encodable message) eqn:Hm.
      * now apply send_error_sends.
      * now apply send_error_raises.
    + exact (GET_fetched W p st content Hp Ht Hf).
    + rewrite (GET_failed W p e Hp Ht Hf).
      destruct (clause_of e) as [[code message]|]; [|reflexivity].
      destruct (Py.latin1_encodable message) eqn:Hm.
      * now apply send_error_sends.
      * now apply send_error_raises.
Qed.

(** A GET off the proxy route never calls [urlopen]. *)
Lemma GET_static_no_fetch W p :
  Py.startswith p "/proxy?url=" = false ->
  fetches (final (GET W p)) = [].
Proof.
  intros Hp. rewrite (GET_static _ _ Hp).
  unfold_methods. unfold Py.startswith.
  destruct (lookup W p) as [ctype content lm| | |new_url|enc encoded| |e];
    [| | | | | |reflexivity];
    cbv -[String.prefix Py.str_of_int Py.len Py.html_escape String.append
          BaseHTTPRequestHandler.error_message_format];
    destruct (prefix "/proxy" p); reflexivity.
Qed.

(** X1. [do_GET] calls [urlopen] at most once, and exactly when the path is
    on the proxy route, the target URL is not empty and [Request] accepts
    it; the request it passes is built from the target with the single
    header [User-Agent: Mozilla/5.0], and the timeout is 30.  A GET for a
    static path, a missing target and a target [Request] refuses (no
    scheme) never reach [urlopen]. *)
Theorem outbound_fetch_exactly W p :
  fetches (final (GET W p)) =
  if Py.startswith p "/proxy?url=" && negb (Py.is_empty (target_url p))
  then
    match urlopen_read W (target_url p) with
    | Rejected _ => []
    | Fetched _ _ | Failed _ =>
        [ {| full_url := target_url p;
             headers := [("User-Agent", "Mozilla/5.0")];
             timeout := 30 |} ]
    end
  else [].
Proof.
  destruct (Py.startswith p "/proxy?url=") eqn:Hp; cbn [andb].
  - rewrite (GET_proxy_outcome W p Hp).
    destruct (Py.is_empty (target_url p)); cbn [negb]; [reflexivity|].
    cbv zeta.
    destruct (urlopen_read W (target_url p)) as [e|st content|e];
      [|reflexivity|];
      (destruct (clause_of e) as [[code message]|]; [|reflexivity]);
      destruct (Py.latin1_encodable message); reflexivity.
  - exact (GET_static_no_fetch W p Hp).
Qed.

(** X8. On the proxy route an exception leaves [do_GET] in two cases only,
    both after [Request] or [urlopen] raised: the exception is no instance
    of [Exception] (no [except] clause takes it, and it goes on as it is),
    or a clause takes it and its message cannot be encoded for the status
    line ([send_error] raises [UnicodeEncodeError]).  A fetched body, an
    [HTTPError] and a missing target never raise. *)
Theorem escape_exactly W p :
  Py.startswith p "/proxy?url=" = true ->
  escaped (GET W p) =
  if Py.is_empty (target_url p) then None
  else
    match urlopen_read W (target_url p) with
    | Fetched _ _ => None
    | Rejected e | Failed e =>
        match e with
        | HTTPError _ _ => None
        | URLError _ =>
            if Py.latin1_encodable (exn_str e) then None
            else Some (Raised UnicodeEncodeError
                         "'latin-1' codec can't encode character")
        | Raised _ _ =>
            if isinstance e (Builtin Exception) then
              if Py.latin1_encodable (exn_str e) then None
              else Some (Raised UnicodeEncodeError
                           "'latin-1' codec can't encode character")
            else Some e
        end
    end.
Proof.
  intros Hp. rewrite (GET_proxy_outcome W p Hp).
  destruct (Py.is_empty (target_url p)); [reflexivity|]. cbv zeta.
  destruct (urlopen_read W (target_url p)) as [e|st content|e];
    [|reflexivity|];
    (destruct e as [code msg|reason|b text];
     [ cbn [clause_of]; now rewrite HTTPError_str_encodable
     | cbn [clause_of]; rewrite latin1_encodable_app;
       change (Py.latin1_encodable "Failed to fetch: ") with true;
       cbn [andb];
       now destruct (Py.latin1_encodable (exn_str (URLError reason)))
     | unfold clause_of;
       destruct (isinstance (Raised b text) (Builtin Exception));
       [|reflexivity];
       rewrite latin1_encodable_app;
       change (Py.latin1_encodable "Server error: ") with true;
       cbn [andb];
       now destruct (Py.latin1_encodable (exn_str (Raised b text))) ]).
Qed.

Lemma escape_exactly_witness :
  escaped (GET sample_world "/proxy?url=%E4%BD%A0")
  = Some (Raised UnicodeEncodeError "'latin-1' codec can't encode character").
Proof.
  exact (escape_exactly sample_world "/proxy?url=%E4%BD%A0" eq_refl).
Defined.

(** ** Header fields *)

(** X4. The answer to OPTIONS makes no outbound request, also on the proxy
    route, and its CORS headers are the three [do_OPTIONS] sends followed by
    what [end_headers] injects: for a path that does not start with
    [/proxy], [Access-Control-Allow-Origin: *] is there twice. *)
Theorem preflight_fields W p :
  fetches (final (OPTIONS W p)) = [] /\
  exists r,
    sent (OPTIONS W p) = Some r /\
    cors_fields r
    = ([ ("Access-Control-Allow-Origin", "*");
         ("Access-Control-Allow-Methods", "GET, OPTIONS");
         ("Access-Control-Allow-Headers", "Content-Type") ]
       ++ (if Py.startswith p "/proxy" then []
           else [("Access-Control-Allow-Origin", "*")]))%list.
Proof.
  split.
  - unfold_methods. unfold Py.startswith. cbv -[String.prefix].
    destruct (prefix "/proxy" p); reflexivity.
  - destruct (OPTIONS_response W p) as [-> _]. eexists. split; [reflexivity|].
    unfold injected. destruct (Py.startswith p "/proxy"); reflexivity.
Qed.

(** X5. The response that relays a fetched body has these header fields,
    in this order and no others: [Server], [Date], [Content-Type] and the
    three CORS headers, each once.  It has no [Content-Length], and no
    header of the remote response is passed on. *)
Theorem relayed_fields_exact W p remote_status content :
  Py.startswith p "/proxy?url=" = true ->
  Py.is_empty (target_url p) = false ->
  urlopen_read W (target_url p) = Fetched remote_status content ->
  exists r,
    sent (GET W p) = Some r /\
    fields r
    = [ ("Server", version_string W); ("Date", date_time_string W);
        ("Content-Type", "text/xml; charset=utf-8");
        ("Access-Control-Allow-Origin", "*");
        ("Access-Control-Allow-Methods", "GET, OPTIONS");
        ("Access-Control-Allow-Headers", "Content-Type") ].
Proof.
  intros Hp Ht Hf.
  destruct (relayed_response W p remote_status content Hp Ht Hf) as [-> _].
  eexists. split; reflexivity.
Qed.

Lemma relayed_fields_exact_witness :
  exists r,
    sent (GET sample_world "/proxy?url=http://a/x.xml") = Some r /\
    fields r
    = [ ("Server", version_string sample_world);
        ("Date", date_time_string sample_world);
        ("Content-Type", "text/xml; charset=utf-8");
        ("Access-Control-Allow-Origin", "*");
        ("Access-Control-Allow-Methods", "GET, OPTIONS");
        ("Access-Control-Allow-Headers", "Content-Type") ].
Proof.
  apply (relayed_fields_exact sample_world "/proxy?url=http://a/x.xml"
           200 "<x/>"); reflexivity.
Defined.

(** X6. What a GET off the proxy route gives, by what the static server
    does with the request: a file is sent with 200 and its bytes, a file
    the client has in cache is answered 304 with no body, a directory
    without final slash 301 with no body, a directory listing 200,
    anything that does not open 404.  The only CORS header of every such
    answer is the one [end_headers] injects: [Access-Control-Allow-Origin: *]
    once when the path does not start with [/proxy], none when it does.
    When [send_head] raises, the exception leaves [do_GET] and nothing was
    written. *)
Theorem static_server_answers W p :
  Py.startswith p "/proxy?url=" = false ->
  match lookup W p with
  | Unservable e =>
      escaped (GET W p) = Some e /\ wfile (final (GET W p)) = []
  | entry =>
      exists r,
        sent (GET W p) = Some r /\ escaped (GET W p) = None /\
        cors_fields r
        = (if Py.startswith p "/proxy" then []
           else [("Access-Control-Allow-Origin", "*")]) /\
        match entry with
        | RegularFile _ content _ => status r = 200 /\ body r = content
        | NotModified => status r = 304 /\ body r = ""
        | Missing | DirectoryUnreadable => status r = 404
        | DirectoryNoSlash _ => status r = 301 /\ body r = ""
        | DirectoryListing _ encoded => status r = 200 /\ body r = encoded
        | Unservable _ => True
        end
  end.
Proof.
  intros Hp. pose proof (static_response W p Hp) as H.
  destruct (lookup W p); try exact H.
  rewrite H. split; reflexivity.
Qed.

Lemma static_server_answers_witness :
  exists r,
    sent (GET sample_world "/docs") = Some r /\
    escaped (GET sample_world "/docs") = None /\
    cors_fields r = [("Access-Control-Allow-Origin", "*")] /\
    status r = 301 /\ body r = "".
Proof.
  apply (static_server_answers sample_world "/docs"). reflexivity.
Defined.

(** ** Edges of the dispatch *)

Lemma split1_no_separator sep (a : string) :
  Py.contains_char sep a = false -> Py.split1 sep a = [a].
Proof.
  induction a as [|c a IH]; [reflexivity|].
  cbn [Py.contains_char Py.split1]. intros H.
  apply orb_false_elim in H. destruct H as [Hc Ha].
  now rewrite Hc, (IH Ha).
Qed.

(** X10. [handle_proxy_request] on a path without question mark: the
    indexing of the split path raises [IndexError] inside the [try]; the
    third clause answers 500 with the message
    "Server error: list index out of range", and no outbound request is
    made. *)
Theorem handle_proxy_request_without_query W p :
  Py.contains_char "?" p = false ->
  let run := CORSProxyHandler.handle_proxy_request W (new_handler "GET" p) in
  sent run
  = Some (error_response W p 500 "Server error: list index out of range") /\
  escaped run = None /\
  fetches (final run) = [].
Proof.
  intros Hp run.
  assert (Hrun : run = Ok tt (after_error W 500
                                "Server error: list index out of range"
                                (new_handler "GET" p))).
  { unfold run, CORSProxyHandler.handle_proxy_request, try_except,
      CORSProxyHandler.proxy_body.
    cbv beta iota zeta delta [bind gets getitem new_handler path].
    rewrite (split1_no_separator _ _ Hp). cbn [nth_error].
    cbv beta iota zeta delta [raise].
    change (find _ _) with
      (Some (Builtin Exception,
             fun e => CORSProxyHandler.send_error W 500
                        ("Server error: " ++ exn_str e))).
    cbv beta iota. now apply send_error_sends. }
  rewrite Hrun. unfold sent, final.
  rewrite response_after_error by reflexivity.
  repeat split.
Qed.

Lemma handle_proxy_request_without_query_witness :
  let run := CORSProxyHandler.handle_proxy_request sample_world
               (new_handler "GET" "/proxy") in
  sent run
  = Some (error_response sample_world "/proxy" 500
            "Server error: list index out of range") /\
  escaped run = None /\
  fetches (final run) = [].
Proof.
  apply (handle_proxy_request_without_query sample_world "/proxy").
  reflexivity.
Defined.

(** X11. A HEAD request is never proxied: the class overrides [do_GET]
    only, so HEAD runs the static server's [do_HEAD] on every path, the
    proxy route included, and [urlopen] is never called.  Every answer has
    an empty body, the status of the static server (200, 304, 301 or 404)
    and, as its only CORS header, the one [end_headers] injects.  When
    [send_head] raises, the exception leaves [do_HEAD] and nothing was
    written. *)
Theorem head_is_never_proxied W p :
  fetches (final (HEAD W p)) = [] /\
  match lookup W p with
  | Unservable e =>
      escaped (HEAD W p) = Some e /\ wfile (final (HEAD W p)) = []
  | entry =>
      exists r,
        sent (HEAD W p) = Some r /\ escaped (HEAD W p) = None /\
        body r = "" /\
        cors_fields r
        = (if Py.startswith p "/proxy" then []
           else [("Access-Control-Allow-Origin", "*")]) /\
        status r = match entry with
                   | RegularFile _ _ _ | DirectoryListing _ _ => 200
                   | NotModified => 304
                   | DirectoryNoSlash _ => 301
                   | _ => 404
                   end
  end.
Proof.
  unfold HEAD, SimpleHTTPRequestHandler.do_HEAD.
  unfold_methods. unfold Py.startswith.
  destruct (lookup W p) as [ctype content lm| | |new_url|enc encoded| |e];
    [| | | | | |repeat split];
    cbv -[String.prefix Py.str_of_int Py.len Py.html_escape String.append
          BaseHTTPRequestHandler.error_message_format];
    destruct (prefix "/proxy" p);
    cbv -[String.prefix Py.str_of_int Py.len Py.html_escape String.append
          BaseHTTPRequestHandler.error_message_format];
    (split; [reflexivity|]); eexists; (split; [reflexivity|]);
    repeat split.
Qed.

